(** * The project-creation dialog and the projects page

    A shallow embedding of [CreateProjectDialog.tsx] (the two-step
    "create project" dialog) and of the projects page that hosts it
    ([ProjectsPage]: [loadProjects], [handleCreateProject],
    [handleDeleteProject]).

    The handlers are [async] functions.  They are embedded as terms of a
    small free monad [Task] whose constructors are the things a handler can
    do: read and update the React state, throw, [await] a call of the remote
    [api], and start another async function without awaiting it.  A handler
    runs until its first [await]; what is left of it waits in the list of
    pending requests until the answer arrives, and other events (a click, a
    close of the dialog, another answer) may happen in between. *)

From Stdlib Require Import String Ascii List Bool Arith Lia.
Import ListNotations.
Local Open Scope string_scope.
Local Open Scope list_scope.
Set Warnings "-register-all".

(** ** Values *)

(** A runtime JavaScript value, as far as the handlers look at one.  The
    TypeScript type of [keywords] and [subreddits] is [string[]], but the
    values come from the server and [handleSubmit] tests them with
    [Array.isArray] at run time.  A character of a [string] stands for one
    UTF-16 code unit, so that [String.length] is the [length] of the
    JavaScript string. *)
Inductive jsval : Type :=
| JUndefined
| JNull
| JNum (n : nat)
| JStr (s : string)
| JArr (l : list jsval).

(** [Array.isArray(v)] *)
Definition Array_isArray (v : jsval) : bool :=
  match v with
  | JArr _ => true
  | _ => false
  end.

(** An array of strings as a JavaScript value. *)
Definition strings (l : list string) : jsval := JArr (map JStr l).

(** [Omit<Project, 'id'>]: the values of the form, and the payload of
    [api.createProject]. *)
Record ProjectData : Type := mkProjectData {
  name : string;
  description : string;
  keywords : jsval;
  subreddits : jsval
}.

(** [Project]: the server adds the [id]. *)
Record Project : Type := mkProject {
  id : string;
  data : ProjectData
}.

(** The answer of [api.analyzeInitial]. *)
Record AnalysisData : Type := mkAnalysisData {
  data_keywords : jsval;
  data_subreddits : jsval
}.

(** What a rejected promise or a [throw] carries. *)
Inductive error : Type :=
| RemoteError (msg : string)
| TypeError (msg : string).

(** A settled promise. *)
Inductive result (A : Type) : Type :=
| Resolved (a : A)
| Rejected (e : error).
Arguments Resolved {A} a.
Arguments Rejected {A} e.

(** What the user can observe besides the page: toasts, the console, and the
    report of a promise that was rejected with nobody awaiting it. *)
Inductive effect : Type :=
| ToastError (msg : string)
| ToastSuccess (msg : string)
| ConsoleError (msg : string)
| UnhandledRejection (e : error).

(** ** The remote api *)

Inductive request : Type :=
| analyzeInitial (name description : string)
| getProjects
| createProject (projectData : ProjectData)
| deleteProject (projectId : string).

(** The type of the value a request resolves to. *)
Definition Resp (c : request) : Type :=
  match c with
  | analyzeInitial _ _ => AnalysisData
  | getProjects => list Project
  | createProject _ => Project
  | deleteProject _ => unit
  end.

(** One behaviour of the server: how it settles each request. *)
Definition Api : Type := forall c : request, result (Resp c).

(** ** React state *)

(** The [useState] cells of [ProjectsPage] ([projects], [isCreateOpen],
    [isLoading]), those of [CreateProjectDialog] ([step], [loading],
    [loadingMessage]), the values held by [useForm], and what has been shown
    to the user so far. The dialog's [open] prop is [isCreateOpen]. *)
Record World : Type := mkWorld {
  projects : list Project;
  isCreateOpen : bool;
  isLoading : bool;
  step : nat;
  loading : bool;
  loadingMessage : string;
  form : ProjectData;
  log : list effect
}.

(** [defaultValues] of [useForm]. *)
Definition defaultValues : ProjectData :=
  {| name := ""; description := ""; keywords := JArr []; subreddits := JArr [] |}.

(** The state at the first render of the page. *)
Definition initialWorld : World :=
  {| projects := [];
     isCreateOpen := false;
     isLoading := true;
     step := 1;
     loading := false;
     loadingMessage := "";
     form := defaultValues;
     log := [] |}.

Definition with_projects (f : list Project -> list Project) (w : World) : World :=
  {| projects := f (projects w); isCreateOpen := isCreateOpen w;
     isLoading := isLoading w; step := step w; loading := loading w;
     loadingMessage := loadingMessage w; form := form w; log := log w |}.

Definition with_isCreateOpen (b : bool) (w : World) : World :=
  {| projects := projects w; isCreateOpen := b;
     isLoading := isLoading w; step := step w; loading := loading w;
     loadingMessage := loadingMessage w; form := form w; log := log w |}.

Definition with_isLoading (b : bool) (w : World) : World :=
  {| projects := projects w; isCreateOpen := isCreateOpen w;
     isLoading := b; step := step w; loading := loading w;
     loadingMessage := loadingMessage w; form := form w; log := log w |}.

Definition with_step (n : nat) (w : World) : World :=
  {| projects := projects w; isCreateOpen := isCreateOpen w;
     isLoading := isLoading w; step := n; loading := loading w;
     loadingMessage := loadingMessage w; form := form w; log := log w |}.

Definition with_loading (b : bool) (w : World) : World :=
  {| projects := projects w; isCreateOpen := isCreateOpen w;
     isLoading := isLoading w; step := step w; loading := b;
     loadingMessage := loadingMessage w; form := form w; log := log w |}.

Definition with_loadingMessage (m : string) (w : World) : World :=
  {| projects := projects w; isCreateOpen := isCreateOpen w;
     isLoading := isLoading w; step := step w; loading := loading w;
     loadingMessage := m; form := form w; log := log w |}.

Definition with_form (f : ProjectData -> ProjectData) (w : World) : World :=
  {| projects := projects w; isCreateOpen := isCreateOpen w;
     isLoading := isLoading w; step := step w; loading := loading w;
     loadingMessage := loadingMessage w; form := f (form w); log := log w |}.

Definition with_effect (e : effect) (w : World) : World :=
  {| projects := projects w; isCreateOpen := isCreateOpen w;
     isLoading := isLoading w; step := step w; loading := loading w;
     loadingMessage := loadingMessage w; form := form w; log := log w ++ [e] |}.

(** ** Async functions *)

(** The body of an async function.  [Await c k] issues the request [c] and
    goes on with [k] once it is settled; [Spawn t k] calls the async function
    [t] without awaiting it and goes on with [k]. *)
Inductive Task (A : Type) : Type :=
| Ret (a : A)
| Throw (e : error)
| Get (k : World -> Task A)
| Modify (f : World -> World) (k : Task A)
| Await (c : request) (k : result (Resp c) -> Task A)
| Spawn (t : Task unit) (k : Task A).
Arguments Ret {A} a.
Arguments Throw {A} e.
Arguments Get {A} k.
Arguments Modify {A} f k.
Arguments Await {A} c k.
Arguments Spawn {A} t k.

Fixpoint bind {A B : Type} (t : Task A) (f : A -> Task B) : Task B :=
  match t with
  | Ret a => f a
  | Throw e => Throw e
  | Get k => Get (fun w => bind (k w) f)
  | Modify g k => Modify g (bind k f)
  | Await c k => Await c (fun r => bind (k r) f)
  | Spawn t' k => Spawn t' (bind k f)
  end.

Declare Scope task_scope.
Delimit Scope task_scope with task.
Notation "x <- t ;; k" := (bind t (fun x => k))
  (at level 61, t at next level, right associativity) : task_scope.
Notation "t ;; k" := (bind t (fun _ => k))
  (at level 61, right associativity) : task_scope.
Local Open Scope task_scope.

(** [try { t } catch (error) { h error }].  An error of a function that was
    called without [await] is not caught. *)
Fixpoint try_catch {A : Type} (t : Task A) (h : error -> Task A) : Task A :=
  match t with
  | Ret a => Ret a
  | Throw e => h e
  | Get k => Get (fun w => try_catch (k w) h)
  | Modify g k => Modify g (try_catch k h)
  | Await c k => Await c (fun r => try_catch (k r) h)
  | Spawn t' k => Spawn t' (try_catch k h)
  end.

(** [try { t } finally { fin }] *)
Fixpoint try_finally {A : Type} (t : Task A) (fin : Task unit) : Task A :=
  match t with
  | Ret a => fin ;; Ret a
  | Throw e => fin ;; Throw e
  | Get k => Get (fun w => try_finally (k w) fin)
  | Modify g k => Modify g (try_finally k fin)
  | Await c k => Await c (fun r => try_finally (k r) fin)
  | Spawn t' k => Spawn t' (try_finally k fin)
  end.

(** [await api.c(...)]: the value of a resolved promise, the error of a
    rejected one thrown. *)
Definition await (c : request) : Task (Resp c) :=
  Await c (fun r => match r with
                    | Resolved a => Ret a
                    | Rejected e => Throw e
                    end).

Definition gets {B : Type} (g : World -> B) : Task B := Get (fun w => Ret (g w)).
Definition modify (f : World -> World) : Task unit := Modify f (Ret tt).
Definition spawn (t : Task unit) : Task unit := Spawn t (Ret tt).

Definition setProjects (f : list Project -> list Project) : Task unit :=
  modify (with_projects f).
Definition setIsCreateOpen (b : bool) : Task unit := modify (with_isCreateOpen b).
Definition setIsLoading (b : bool) : Task unit := modify (with_isLoading b).
Definition setStep (n : nat) : Task unit := modify (with_step n).
Definition setLoading (b : bool) : Task unit := modify (with_loading b).
Definition setLoadingMessage (m : string) : Task unit := modify (with_loadingMessage m).
Definition toast_error (m : string) : Task unit := modify (with_effect (ToastError m)).
Definition toast_success (m : string) : Task unit := modify (with_effect (ToastSuccess m)).
Definition console_error (m : string) : Task unit := modify (with_effect (ConsoleError m)).

(** ** [CreateProjectDialog] *)

(** [s.replace(/^r\//, '')]: the pattern is anchored at the start of the
    string and has no [g] flag, so one leading [r/] is removed, if there is
    one. *)
Definition replace_r_slash (s : string) : string :=
  match s with
  | String c1 (String c2 rest) =>
      if (c1 =? "r")%char && (c2 =? "/")%char then rest else s
  | _ => s
  end.

(** Does [s] start with [r/]? *)
Definition starts_with_r_slash (s : string) : bool :=
  match s with
  | String c1 (String c2 _) => (c1 =? "r")%char && (c2 =? "/")%char
  | _ => false
  end.

(** The callback [s => s.replace(/^r\//, '')] applied to one element of the
    array: a value that is not a string has no [replace] method, and the
    call throws a [TypeError]. *)
Definition replace_callback (v : jsval) : result jsval :=
  match v with
  | JStr s => Resolved (JStr (replace_r_slash s))
  | _ => Rejected (TypeError "s.replace is not a function")
  end.

(** [l.map(s => s.replace(/^r\//, ''))], stopping at the first element on
    which the callback throws. *)
Fixpoint map_replace (l : list jsval) : result (list jsval) :=
  match l with
  | [] => Resolved []
  | v :: l' =>
      match replace_callback v with
      | Rejected e => Rejected e
      | Resolved v' =>
          match map_replace l' with
          | Rejected e => Rejected e
          | Resolved l'' => Resolved (v' :: l'')
          end
      end
  end.

(** [Array.isArray(projectData.keywords) ? projectData.keywords : []] *)
Definition format_keywords (v : jsval) : jsval :=
  if Array_isArray v then v else JArr [].

(** [Array.isArray(projectData.subreddits)
      ? projectData.subreddits.map(s => s.replace(/^r\//, '')) : []] *)
Definition format_subreddits (v : jsval) : result jsval :=
  match v with
  | JArr l =>
      match map_replace l with
      | Resolved l' => Resolved (JArr l')
      | Rejected e => Rejected e
      end
  | _ => Resolved (JArr [])
  end.

(** [formattedData] of [handleSubmit]: the form values with the two array
    fields replaced. *)
Definition formatData (projectData : ProjectData) : result ProjectData :=
  match format_subreddits (subreddits projectData) with
  | Resolved subs =>
      Resolved {| name := name projectData;
                  description := description projectData;
                  keywords := format_keywords (keywords projectData);
                  subreddits := subs |}
  | Rejected e => Rejected e
  end.

(** A synchronous computation that may throw, inside an async function. *)
Definition lift {A : Type} (r : result A) : Task A :=
  match r with
  | Resolved a => Ret a
  | Rejected e => Throw e
  end.

(** [const isFormValid = name && description && description.length >= 10]:
    a string is truthy when it is not empty. *)
Definition isFormValid (w : World) : bool :=
  negb (name (form w) =? "")%string
  && negb (description (form w) =? "")%string
  && (10 <=? String.length (description (form w)))%nat.

(** [form.getValues()], [form.setValue(...)] and [reset()] of
    [react-hook-form]. *)
Definition form_getValues : Task ProjectData := gets form.

Definition set_name (s : string) (d : ProjectData) : ProjectData :=
  {| name := s; description := description d;
     keywords := keywords d; subreddits := subreddits d |}.
Definition set_description (s : string) (d : ProjectData) : ProjectData :=
  {| name := name d; description := s;
     keywords := keywords d; subreddits := subreddits d |}.
Definition set_keywords (v : jsval) (d : ProjectData) : ProjectData :=
  {| name := name d; description := description d;
     keywords := v; subreddits := subreddits d |}.
Definition set_subreddits (v : jsval) (d : ProjectData) : ProjectData :=
  {| name := name d; description := description d;
     keywords := keywords d; subreddits := v |}.

Definition form_setValue_keywords (v : jsval) : Task unit :=
  modify (with_form (set_keywords v)).
Definition form_setValue_subreddits (v : jsval) : Task unit :=
  modify (with_form (set_subreddits v)).
Definition reset : Task unit := modify (with_form (fun _ => defaultValues)).

Definition handleAnalyze : Task unit :=
  valid <- gets isFormValid ;;
  if negb valid then
    toast_error
      "Please enter a project name and description (at least 10 characters)"
  else
    setLoading true ;;
    setLoadingMessage "Analyzing your project..." ;;
    try_finally
      (try_catch
         (name_ <- gets (fun w => name (form w)) ;;
          description_ <- gets (fun w => description (form w)) ;;
          data <- await (analyzeInitial name_ description_) ;;
          form_setValue_keywords (data_keywords data) ;;
          form_setValue_subreddits (data_subreddits data) ;;
          setStep 2)
         (fun error =>
            toast_error "Failed to analyze project. Please try again." ;;
            console_error "Analysis error:"))
      (setLoading false ;;
       setLoadingMessage "").

Section Props.

(** The props [onOpenChange] and [onProjectCreated] of the dialog. *)
Variable onOpenChange : bool -> Task unit.
Variable onProjectCreated : ProjectData -> Task unit.

Definition handleSubmit : Task unit :=
  setLoading true ;;
  setLoadingMessage "Creating your project..." ;;
  try_finally
    (try_catch
       (projectData <- form_getValues ;;
        formattedData <- lift (formatData projectData) ;;
        onProjectCreated formattedData ;;
        onOpenChange false ;;
        toast_success "Project created successfully!")
       (fun error =>
          console_error "Error creating project:" ;;
          toast_error "Failed to create project. Please try again."))
    (setLoading false ;;
     setLoadingMessage "").

End Props.

(** The [useEffect] of the dialog, run when [open] has changed:
    [if (!open) { reset(); setStep(1); }]. *)
Definition resetOnClose : Task unit :=
  open <- gets isCreateOpen ;;
  if negb open then reset ;; setStep 1 else Ret tt.

(** The [disabled] attribute of the two buttons that start a request. *)
Definition analyze_disabled (w : World) : bool := negb (isFormValid w) || loading w.
Definition submit_disabled (w : World) : bool := loading w.

(** ** [ProjectsPage] *)

Definition loadProjects : Task unit :=
  try_finally
    (try_catch
       (fetchedProjects <- await getProjects ;;
        setProjects (fun _ => fetchedProjects))
       (fun error =>
          console_error "Failed to load projects:" ;;
          toast_error "Failed to load projects. Please try again."))
    (setIsLoading false).

Definition handleCreateProject (projectData : ProjectData) : Task unit :=
  try_catch
    (newProject <- await (createProject projectData) ;;
     setProjects (fun prevProjects => prevProjects ++ [newProject]) ;;
     toast_success "Project created successfully!")
    (fun error =>
       console_error "Failed to create project:" ;;
       toast_error "Failed to create project. Please try again." ;;
       Throw error).

Definition handleDeleteProject (projectId : string) : Task unit :=
  try_catch
    (setProjects
       (fun prevProjects =>
          filter (fun p => negb (id p =? projectId)%string) prevProjects) ;;
     await (deleteProject projectId) ;;
     toast_success "Project deleted successfully")
    (fun error =>
       console_error "Delete project error:" ;;
       spawn loadProjects ;;
       toast_error "Failed to delete project. Please try again.").

(** The [useEffect] of the page at its first render, for a signed-in user:
    [loadProjects()]. *)
Definition pageMounted : Task unit := spawn loadProjects.

(** The dialog as the page renders it: [onOpenChange = setIsCreateOpen],
    [onProjectCreated = handleCreateProject]. *)
Definition dialog_handleSubmit : Task unit :=
  handleSubmit setIsCreateOpen handleCreateProject.

(** ** The event loop *)

(** A request that has been issued and not settled yet, with what is left of
    the async function that awaits it. *)
Record Pending : Type := mkPending {
  req : request;
  cont : result (Resp req) -> Task unit
}.

(** How a run of an async function stops: it has returned or thrown, or it
    waits at an [await]. *)
Inductive status (A : Type) : Type :=
| Finished (r : result A)
| Suspended (c : request) (k : result (Resp c) -> Task A).
Arguments Finished {A} r.
Arguments Suspended {A} c k.

(** What a function called without [await] leaves behind: the request it
    waits for, if any.  Nobody looks at its promise: if it has thrown, the
    rejection is unhandled. *)
Definition parked (st : status unit) : list Pending :=
  match st with
  | Finished _ => []
  | Suspended c k => [mkPending c k]
  end.

Definition unhandled (st : status unit) (w : World) : World :=
  match st with
  | Finished (Rejected e) => with_effect (UnhandledRejection e) w
  | _ => w
  end.

(** Run [t] up to its first [await].  The result is the new state, the
    requests issued on the way by functions that were not awaited (in the
    order they were issued), and how [t] stopped. *)
Fixpoint run_sync {A : Type} (t : Task A) (w : World)
  : World * list Pending * status A :=
  match t with
  | Ret a => (w, [], Finished (Resolved a))
  | Throw e => (w, [], Finished (Rejected e))
  | Get k => run_sync (k w) w
  | Modify f k => run_sync k (f w)
  | Await c k => (w, [], Suspended c k)
  | Spawn t' k =>
      let '(w1, ps1, st1) := run_sync t' w in
      let '(w2, ps2, st2) := run_sync k (unhandled st1 w1) in
      (w2, ps1 ++ parked st1 ++ ps2, st2)
  end.

(** The render that follows: the effect of the dialog runs when its
    dependency [open] differs from the one of the render before.  (At the
    first render of the dialog the effect finds the initial state and changes
    nothing.) *)
Definition after_render (before after : World) : World :=
  if Bool.eqb (isCreateOpen before) (isCreateOpen after) then after
  else let '(w, _, _) := run_sync resetOnClose after in w.

(** The page together with the requests in flight, oldest first. *)
Record Sys : Type := mkSys {
  world : World;
  pending : list Pending
}.

(** No request in flight. *)
Definition idle (w : World) : Sys := {| world := w; pending := [] |}.

Definition requests (s : Sys) : list request := map req (pending s).

(** Run an event handler, or the rest of one, up to its next [await]. *)
Definition start (t : Task unit) (s : Sys) : Sys :=
  let '(w, ps, st) := run_sync t (world s) in
  {| world := after_render (world s) (unhandled st w);
     pending := pending s ++ ps ++ parked st |}.

Fixpoint remove_nth {A : Type} (i : nat) (l : list A) : list A :=
  match i, l with
  | _, [] => []
  | 0, _ :: l' => l'
  | S i', x :: l' => x :: remove_nth i' l'
  end.

(** The [i]-th request in flight is settled the way [api] settles it, and the
    function that awaited it goes on. *)
Definition settle (i : nat) (api : Api) (s : Sys) : Sys :=
  match nth_error (pending s) i with
  | None => s
  | Some p =>
      start (cont p (api (req p)))
            {| world := world s; pending := remove_nth i (pending s) |}
  end.

Inductive Event : Type :=
| ClickNewProject
| CloseDialog
| TypeName (s : string)
| TypeDescription (s : string)
| ClickAnalyze
| ClickBack
| ClickCreate
| ClickDelete (projectId : string)
| Settled (i : nat) (api : Api).

(** Which events the rendered page lets happen.  While [isLoading] the page
    shows a spinner only; the inputs and buttons of the dialog exist while it
    is open, those of step 1 as long as [step === 1], and a disabled control
    does not fire. *)
Definition enabled (e : Event) (s : Sys) : bool :=
  let w := world s in
  match e with
  | ClickNewProject => negb (isLoading w)
  | CloseDialog => negb (isLoading w) && isCreateOpen w
  | TypeName _ | TypeDescription _ =>
      negb (isLoading w) && isCreateOpen w && (step w =? 1)%nat && negb (loading w)
  | ClickAnalyze =>
      negb (isLoading w) && isCreateOpen w && (step w =? 1)%nat
      && negb (analyze_disabled w)
  | ClickBack =>
      negb (isLoading w) && isCreateOpen w && negb (step w =? 1)%nat
      && negb (loading w)
  | ClickCreate =>
      negb (isLoading w) && isCreateOpen w && negb (step w =? 1)%nat
      && negb (submit_disabled w)
  | ClickDelete _ => negb (isLoading w)
  | Settled i _ => (i <? length (pending s))%nat
  end.

Definition fire (e : Event) (s : Sys) : Sys :=
  match e with
  | ClickNewProject => start (setIsCreateOpen true) s
  | CloseDialog => start (setIsCreateOpen false) s
  | TypeName v => start (modify (with_form (set_name v))) s
  | TypeDescription v => start (modify (with_form (set_description v))) s
  | ClickAnalyze => start handleAnalyze s
  | ClickBack => start (setStep 1) s
  | ClickCreate => start dialog_handleSubmit s
  | ClickDelete projectId => start (handleDeleteProject projectId) s
  | Settled i api => settle i api s
  end.

(** The page right after its first render. *)
Definition mounted : Sys := start pageMounted (idle initialWorld).

Inductive reachable : Sys -> Prop :=
| reachable_mounted : reachable mounted
| reachable_fire (e : Event) (s : Sys) :
    reachable s -> enabled e s = true -> reachable (fire e s).

(** A run of events from a state. *)
Definition run (es : list Event) (s : Sys) : Sys :=
  fold_left (fun s e => fire e s) es s.

(** The number of analysis and creation requests in flight. *)
Definition from_dialog (c : request) : bool :=
  match c with
  | analyzeInitial _ _ | createProject _ => true
  | getProjects | deleteProject _ => false
  end.

Definition dialog_count (ps : list Pending) : nat :=
  length (filter from_dialog (map req ps)).

Definition in_flight (s : Sys) : nat := dialog_count (pending s).

(** Are all the events of a run enabled when they happen? *)
Fixpoint feasible (es : list Event) (s : Sys) : bool :=
  match es with
  | [] => true
  | e :: es' => enabled e s && feasible es' (fire e s)
  end.

(** ** The busy flag and the requests in flight *)

(** What is left of [handleAnalyze] or [handleSubmit] after its [await]:
    however the request is settled, it runs to its end without another
    request and takes the busy flag down. *)
Definition releases (p : Pending) : Prop :=
  forall r w, exists w' st,
    run_sync (cont p r) w = (w', [], Finished st) /\ loading w' = false.

(** What is left of [loadProjects]: it runs to its end without another
    request and does not touch the busy flag. *)
Definition quiet (p : Pending) : Prop :=
  from_dialog (req p) = false
  /\ forall r w, exists w' st,
       run_sync (cont p r) w = (w', [], Finished st)
       /\ loading w' = loading w.

(** What is left of a handler of the page: it does not touch the busy flag,
    and the requests it issues are reloads. *)
Definition page_side (p : Pending) : Prop :=
  from_dialog (req p) = false
  /\ forall r w, exists w' ps st,
       run_sync (cont p r) w = (w', ps, Finished st)
       /\ loading w' = loading w
       /\ Forall quiet ps.

Definition well_behaved (p : Pending) : Prop :=
  if from_dialog (req p) then releases p else page_side p.

(** The busy flag is up exactly while one request of the dialog is in
    flight, and there is never more than one. *)
Definition busy_invariant (s : Sys) : Prop :=
  Forall well_behaved (pending s)
  /\ in_flight s = if loading (world s) then 1 else 0.

(** ** What the page shows *)

(** The three branches of the render of [ProjectsPage]: the spinner while
    [isLoading], the invitation to create a first project when
    [projects.length === 0], the grid of project cards otherwise. *)
Inductive View : Type :=
| Spinner
| NoProjectsYet
| ProjectGrid (l : list Project).

Definition page_view (w : World) : View :=
  if isLoading w then Spinner
  else match projects w with
       | [] => NoProjectsYet
       | _ :: _ => ProjectGrid (projects w)
       end.

(** The text of a subreddit badge in the Review step: [r/{subreddit}]. *)
Definition subreddit_badge (subreddit : string) : string :=
  ("r/" ++ subreddit)%string.

(** The handler that an event of the user runs. *)
Definition handler (e : Event) : Task unit :=
  match e with
  | ClickNewProject => setIsCreateOpen true
  | CloseDialog => setIsCreateOpen false
  | TypeName v => modify (with_form (set_name v))
  | TypeDescription v => modify (with_form (set_description v))
  | ClickAnalyze => handleAnalyze
  | ClickBack => setStep 1
  | ClickCreate => dialog_handleSubmit
  | ClickDelete projectId => handleDeleteProject projectId
  | Settled _ _ => Ret tt
  end.

Definition is_string (v : jsval) : bool :=
  match v with
  | JStr _ => true
  | _ => false
  end.

(** ** Properties kept by every step of an async function *)

(** [keeps Q T C t]: every update of the state that [t] makes, on whatever
    path and in whatever state, keeps [Q]; an error that [t] ends with
    satisfies [T]; a request that [t] issues satisfies [C]. *)
Inductive keeps (Q : World -> Prop) (T : error -> Prop) (C : request -> Prop)
  : forall A : Type, Task A -> Prop :=
| keeps_Ret A (a : A) : keeps Q T C A (Ret a)
| keeps_Throw A (e : error) : T e -> keeps Q T C A (Throw e)
| keeps_Get A (k : World -> Task A) :
    (forall w, keeps Q T C A (k w)) -> keeps Q T C A (Get k)
| keeps_Modify A (f : World -> World) (k : Task A) :
    (forall w, Q w -> Q (f w)) -> keeps Q T C A k ->
    keeps Q T C A (Modify f k)
| keeps_Await A (c : request) (k : result (Resp c) -> Task A) :
    C c -> (forall r, keeps Q T C A (k r)) -> keeps Q T C A (Await c k)
| keeps_Spawn A (t : Task unit) (k : Task A) :
    keeps Q T C unit t -> keeps Q T C A k -> keeps Q T C A (Spawn t k).

(** A request in flight whose continuation keeps the property, however the
    request is settled. *)
Definition hered (Q : World -> Prop) (T : error -> Prop) (C : request -> Prop)
  (p : Pending) : Prop :=
  C (req p) /\ forall r, keeps Q T C unit (cont p r).

(** How a run may stop. *)
Definition status_ok (Q : World -> Prop) (T : error -> Prop)
  (C : request -> Prop) {A : Type} (st : status A) : Prop :=
  match st with
  | Finished (Resolved _) => True
  | Finished (Rejected e) => T e
  | Suspended c k => C c /\ forall r, keeps Q T C A (k r)
  end.

(** [Q] holds now and will hold whatever the requests in flight bring. *)
Definition guarded (Q : World -> Prop) (T : error -> Prop)
  (C : request -> Prop) (s : Sys) : Prop :=
  Q (world s) /\ Forall (hered Q T C) (pending s).

(** The toast of the validation in [handleAnalyze]. *)
Definition validation_toast : effect :=
  ToastError
    "Please enter a project name and description (at least 10 characters)".

(** What a request must look like: an analysis is asked for a named draft
    with a description of length at least 10, and a project is created with
    an array of keywords and an array of strings as subreddits. *)
Definition well_formed (c : request) : Prop :=
  match c with
  | analyzeInitial name_ description_ =>
      name_ <> "" /\ 10 <= String.length description_
  | createProject d =>
      Array_isArray (keywords d) = true
      /\ exists l, subreddits d = strings l
  | getProjects | deleteProject _ => True
  end.

(** The dialog is closed, idle and empty. *)
Definition closed_and_empty (w : World) : Prop :=
  isCreateOpen w = false /\ loading w = false
  /\ step w = 1 /\ form w = defaultValues.

(** What can happen while the dialog is closed and stays closed: a project
    card is asked to delete its project, a request is settled. *)
Definition behind_closed_dialog (e : Event) : bool :=
  match e with
  | ClickDelete _ | Settled _ _ => true
  | _ => false
  end.

(** The properties of the state that the theorems below follow through the
    runs of the page. *)
Definition step_1_or_2 (w : World) : Prop := step w = 1 \/ step w = 2.

Definition no_unhandled (w : World) : Prop :=
  forall e, ~ In (UnhandledRejection e) (log w).

Definition page_loaded (w : World) : Prop := isLoading w = false.

Definition no_validation_toast (w : World) : Prop :=
  ~ In validation_toast (log w).

Definition any_error (e : error) : Prop := True.
Definition no_error (e : error) : Prop := False.
Definition any_request (c : request) : Prop := True.
Definition page_request (c : request) : Prop := from_dialog c = false.

(** What the user can still do while a request of the dialog is in flight:
    open or close the dialog and delete a project; besides, requests are
    settled. *)
Definition possible_while_busy (e : Event) : bool :=
  match e with
  | ClickNewProject | CloseDialog | ClickDelete _ | Settled _ _ => true
  | _ => false
  end.

(** ** Servers and states of the examples *)

(** A server that cannot be reached: every request is rejected. *)
Definition api_down : Api := fun _ => Rejected (RemoteError "Network Error").

(** A server that answers every request; it holds the projects
    [server_list]. *)
Definition api_up (server_list : list Project) : Api :=
  fun c =>
    match c with
    | analyzeInitial _ _ =>
        Resolved {| data_keywords := strings ["go"];
                    data_subreddits := strings ["r/golang"; "rust"] |}
    | getProjects => Resolved server_list
    | createProject d => Resolved {| id := "p2"; data := d |}
    | deleteProject _ => Resolved tt
    end.

(** The dialog open in the Review step, the analysis having found the
    subreddits [subs]. *)
Definition review_world (subs : jsval) : World :=
  {| projects := [];
     isCreateOpen := true;
     isLoading := false;
     step := 2;
     loading := false;
     loadingMessage := "";
     form := {| name := "gophers"; description := "Go programming";
                keywords := strings ["go"]; subreddits := subs |};
     log := [] |}.

(** The dialog open in the Draft step with the draft [name_],
    [description_]. *)
Definition draft_world (name_ description_ : string) : World :=
  {| projects := [];
     isCreateOpen := true;
     isLoading := false;
     step := 1;
     loading := false;
     loadingMessage := "";
     form := {| name := name_; description := description_;
                keywords := JArr []; subreddits := JArr [] |};
     log := [] |}.

Definition project1 : Project :=
  {| id := "p1";
     data := {| name := "gophers"; description := "Go programming";
                keywords := strings ["go"]; subreddits := strings ["golang"] |} |}.

(** The page showing the list [l], the dialog closed. *)
Definition listing_world (l : list Project) : World :=
  {| projects := l;
     isCreateOpen := false;
     isLoading := false;
     step := 1;
     loading := false;
     loadingMessage := "";
     form := defaultValues;
     log := [] |}.

(** The user opens the dialog, enters a draft, asks for the analysis and
    closes the dialog before the answer has come. *)
Definition close_while_analyzing : list Event :=
  [Settled 0 (api_up []); ClickNewProject; TypeName "gophers";
   TypeDescription "Go programming"; ClickAnalyze; CloseDialog].

(** Then the answer comes, and the user opens the dialog again. *)
Definition reopen_after_answer : list Event :=
  [Settled 0 (api_up []); ClickNewProject].

(** The user opens the dialog, enters a draft and asks for the analysis. *)
Definition analysis_started : list Event :=
  [Settled 0 (api_up []); ClickNewProject; TypeName "gophers";
   TypeDescription "Go programming"; ClickAnalyze].

(** ** Basic facts *)

Lemma after_render_same (before after : World) :
  isCreateOpen before = isCreateOpen after -> after_render before after = after.
Proof.
  intros H. unfold after_render. rewrite H, Bool.eqb_reflx. reflexivity.
Qed.

Lemma isFormValid_spec (w : World) :
  isFormValid w = true <->
  name (form w) <> "" /\ 10 <= String.length (description (form w)).
Proof.
  unfold isFormValid. rewrite !andb_true_iff, !negb_true_iff, !String.eqb_neq.
  rewrite Nat.leb_le. split.
  - intros [[Hn _] Hl]. split; assumption.
  - intros [Hn Hl]. repeat split; try assumption.
    intros E. rewrite E in Hl. cbn in Hl. lia.
Qed.

Lemma isFormValid_false (w : World) :
  isFormValid w = false <->
  name (form w) = "" \/ String.length (description (form w)) < 10.
Proof.
  split.
  - intros H. destruct (string_dec (name (form w)) "") as [E | N]; [now left |].
    right. destruct (Nat.lt_ge_cases (String.length (description (form w))) 10)
      as [L | G]; [assumption |].
    assert (isFormValid w = true) by (apply isFormValid_spec; split; assumption).
    congruence.
  - intros H. destruct (isFormValid w) eqn:E; [| reflexivity].
    apply isFormValid_spec in E. destruct E as [Hn Hl].
    destruct H as [H | H]; [contradiction | lia].
Qed.

(** ** Validation before the analysis *)

(** C2. For every draft whose name is empty or whose description is shorter
    than 10, [handleAnalyze] issues no request and shows the validation
    error, and nothing else of the state changes; for every draft with a
    non-empty name and a description of length at least 10 it issues
    [api.analyzeInitial] with the name and the description of the draft. *)
Theorem handleAnalyze_validates (w : World) :
  let s := start handleAnalyze (idle w) in
  (name (form w) = "" \/ String.length (description (form w)) < 10 ->
   requests s = []
   /\ world s =
      with_effect
        (ToastError
           "Please enter a project name and description (at least 10 characters)")
        w)
  /\ (name (form w) <> "" /\ 10 <= String.length (description (form w)) ->
      requests s = [analyzeInitial (name (form w)) (description (form w))]).
Proof.
  cbv zeta. split.
  - intros H. apply isFormValid_false in H.
    unfold start, handleAnalyze. cbn -[isFormValid]. rewrite H. cbn.
    split; [reflexivity |]. apply after_render_same. reflexivity.
  - intros H. apply isFormValid_spec in H.
    unfold start, handleAnalyze. cbn -[isFormValid]. rewrite H. cbn.
    reflexivity.
Qed.

(** ** The analysis *)

(** C5. From the Draft step with a valid draft, [handleAnalyze] issues the
    analysis request.  When it resolves, the flow is in the Review step
    ([step = 2]) and the form holds exactly the keywords and subreddits of
    the answer, next to the name and description of the draft.  When it is
    rejected, the flow is still in Draft ([step = 1]), the whole form is as
    it was, and the failure is shown as a toast.  Either way no request is
    left and the busy flag is down. *)
Theorem handleAnalyze_outcome (w : World) (api : Api) :
  step w = 1 ->
  isFormValid w = true ->
  let c := analyzeInitial (name (form w)) (description (form w)) in
  let s1 := start handleAnalyze (idle w) in
  let s2 := settle 0 api s1 in
  requests s1 = [c]
  /\ (forall data, api c = Resolved data ->
      step (world s2) = 2
      /\ keywords (form (world s2)) = data_keywords data
      /\ subreddits (form (world s2)) = data_subreddits data
      /\ name (form (world s2)) = name (form w)
      /\ description (form (world s2)) = description (form w)
      /\ log (world s2) = log w)
  /\ (forall e, api c = Rejected e ->
      step (world s2) = 1
      /\ form (world s2) = form w
      /\ log (world s2) =
         log w ++ [ToastError "Failed to analyze project. Please try again.";
                   ConsoleError "Analysis error:"])
  /\ pending s2 = []
  /\ loading (world s2) = false.
Proof.
  intros Hstep Hvalid. cbv zeta.
  unfold settle, start, handleAnalyze. cbn -[isFormValid]. rewrite Hvalid. cbn.
  rewrite after_render_same by reflexivity. cbn.
  destruct (api (analyzeInitial (name (form w)) (description (form w))))
    as [data | e]; cbn; rewrite after_render_same by reflexivity; cbn.
  - split; [reflexivity |]. split; [| split; [| split; reflexivity]].
    + intros data' E. injection E as <-. repeat split; reflexivity.
    + intros e E. discriminate E.
  - split; [reflexivity |]. split; [| split; [| split; reflexivity]].
    + intros data E. discriminate E.
    + intros e' E. repeat split; try assumption; try reflexivity.
      rewrite <- app_assoc. reflexivity.
Qed.

(** ** Loading the list *)

(** C8. When [api.getProjects] is rejected, the list held by the page after
    [loadProjects] is the list held before; the failure goes to the console
    and to a toast, and [loadProjects] itself returns normally (no rejection
    is left unhandled) with the spinner taken down. *)
Theorem loadProjects_failure_keeps_list (w : World) (api : Api) (e : error) :
  api getProjects = Rejected e ->
  let s1 := start loadProjects (idle w) in
  let s2 := settle 0 api s1 in
  requests s1 = [getProjects]
  /\ projects (world s1) = projects w
  /\ projects (world s2) = projects w
  /\ log (world s2) =
     log w ++ [ConsoleError "Failed to load projects:";
               ToastError "Failed to load projects. Please try again."]
  /\ isLoading (world s2) = false
  /\ pending s2 = [].
Proof.
  intros H. cbv zeta. unfold settle, start, loadProjects. cbn.
  rewrite after_render_same by reflexivity. cbn. rewrite H. cbn.
  rewrite after_render_same by reflexivity. cbn.
  repeat split; try reflexivity. rewrite <- app_assoc. reflexivity.
Qed.

(** ** Submitting *)

(** C1. When [api.createProject] is rejected during a submit, the step
    (Review, when the submit started there), the four fields of the draft,
    the open dialog and the list of projects are, both while the request is
    in flight and after the failure, what they were before the submit; the
    busy flag is down again, the failure is shown as a toast, and a retry
    sends the very same payload. *)
Theorem handleSubmit_failure_keeps_draft (w : World) (api : Api) (e : error) :
  (forall d, api (createProject d) = Rejected e) ->
  let s1 := start dialog_handleSubmit (idle w) in
  let s2 := settle 0 api s1 in
  (requests s1 =
     match formatData (form w) with
     | Resolved d => [createProject d]
     | Rejected _ => []
     end)
  /\ (step (world s1) = step w
      /\ form (world s1) = form w
      /\ isCreateOpen (world s1) = isCreateOpen w
      /\ projects (world s1) = projects w)
  /\ (step (world s2) = step w
      /\ form (world s2) = form w
      /\ isCreateOpen (world s2) = isCreateOpen w
      /\ projects (world s2) = projects w)
  /\ loading (world s2) = false
  /\ loadingMessage (world s2) = ""
  /\ pending s2 = []
  /\ (exists l,
        log (world s2) =
        log w ++ l ++ [ToastError "Failed to create project. Please try again."])
  /\ requests (start dialog_handleSubmit (idle (world s2))) = requests s1.
Proof.
  intros H. cbv zeta.
  unfold settle, start, dialog_handleSubmit, handleSubmit.
  cbn -[formatData].
  destruct (formatData (form w)) as [d | e0] eqn:F; cbn -[formatData].
  - rewrite after_render_same by reflexivity. cbn -[formatData].
    rewrite H. cbn -[formatData].
    rewrite after_render_same by reflexivity. cbn -[formatData].
    rewrite F. cbn.
    repeat split; try reflexivity.
    exists [ConsoleError "Failed to create project:";
            ToastError "Failed to create project. Please try again.";
            ConsoleError "Error creating project:"].
    rewrite <- !app_assoc. reflexivity.
  - rewrite after_render_same by reflexivity. cbn -[formatData].
    rewrite F. cbn.
    repeat split; try reflexivity.
    exists [ConsoleError "Error creating project:"].
    rewrite <- !app_assoc. reflexivity.
Qed.

(** *** The payload *)

Lemma map_replace_strings (l : list string) :
  map_replace (map JStr l) = Resolved (map JStr (map replace_r_slash l)).
Proof.
  induction l as [| s l IH]; cbn; [reflexivity |]. rewrite IH. reflexivity.
Qed.

Lemma format_subreddits_strings (l : list string) :
  format_subreddits (strings l) = Resolved (strings (map replace_r_slash l)).
Proof.
  unfold format_subreddits, strings. rewrite map_replace_strings. reflexivity.
Qed.

Lemma format_subreddits_array (v v' : jsval) :
  format_subreddits v = Resolved v' -> Array_isArray v' = true.
Proof.
  destruct v; cbn; try (intros E; injection E as <-; reflexivity).
  destruct (map_replace l); intros E; [injection E as <- | discriminate E].
  reflexivity.
Qed.

Lemma format_keywords_array (v : jsval) : Array_isArray (format_keywords v) = true.
Proof.
  unfold format_keywords. destruct (Array_isArray v) eqn:E; [assumption | reflexivity].
Qed.

(** What [handleSubmit] sends: nothing when building [formattedData] throws,
    and one [api.createProject] with [formattedData] otherwise. *)
Lemma handleSubmit_requests (w : World) :
  requests (start dialog_handleSubmit (idle w)) =
  match formatData (form w) with
  | Resolved d => [createProject d]
  | Rejected _ => []
  end.
Proof.
  unfold start, dialog_handleSubmit, handleSubmit. cbn -[formatData].
  destruct (formatData (form w)); reflexivity.
Qed.

Lemma replace_r_slash_fixed (s : string) :
  starts_with_r_slash s = false -> replace_r_slash s = s.
Proof.
  destruct s as [| c1 [| c2 rest]]; cbn; try reflexivity.
  intros H. rewrite H. reflexivity.
Qed.

Lemma replace_r_slash_twice (s : string) :
  starts_with_r_slash (replace_r_slash s) = true ->
  exists rest, s = ("r/r/" ++ rest)%string.
Proof.
  destruct s as [| c1 [| c2 rest]]; cbn; try discriminate.
  destruct ((c1 =? "r")%char && (c2 =? "/")%char) eqn:E.
  - apply andb_true_iff in E. destruct E as [E1 E2].
    apply Ascii.eqb_eq in E1, E2. subst c1 c2.
    destruct rest as [| c3 [| c4 rest]]; cbn; try discriminate.
    intros E. apply andb_true_iff in E. destruct E as [E3 E4].
    apply Ascii.eqb_eq in E3, E4. subst c3 c4.
    exists rest. reflexivity.
  - cbn. rewrite E. discriminate.
Qed.

(** C3, as stated, fails: the pattern removes one leading [r/], so the
    subreddit [r/r/golang] of the form is sent as [r/golang], which starts
    with the prefix. *)
Lemma doubled_prefix_survives :
  requests (start dialog_handleSubmit
                  (idle (review_world (strings ["r/r/golang"])))) =
  [createProject {| name := "gophers"; description := "Go programming";
                    keywords := strings ["go"];
                    subreddits := strings ["r/golang"] |}]
  /\ starts_with_r_slash "r/golang" = true.
Proof. split; reflexivity. Qed.

(** C3, amended. For every list of subreddit strings in the form, the
    payload of [api.createProject] holds each of them with one leading [r/]
    removed, in the same order; a subreddit of the payload starts with [r/]
    only when the one of the form started with [r/r/]. *)
Theorem handleSubmit_strips_one_prefix (w : World) (l : list string) :
  subreddits (form w) = strings l ->
  exists d,
    requests (start dialog_handleSubmit (idle w)) = [createProject d]
    /\ subreddits d = strings (map replace_r_slash l)
    /\ (forall s, In s l ->
        starts_with_r_slash s = false -> replace_r_slash s = s)
    /\ (forall s, In s l ->
        starts_with_r_slash (replace_r_slash s) = true ->
        exists rest, s = ("r/r/" ++ rest)%string).
Proof.
  intros H. rewrite handleSubmit_requests. unfold formatData.
  rewrite H, format_subreddits_strings. eexists. split; [reflexivity |].
  split; [reflexivity |]. split.
  - intros s _. apply replace_r_slash_fixed.
  - intros s _. apply replace_r_slash_twice.
Qed.

Lemma replace_r_slash_fixed_iff (s : string) :
  replace_r_slash s = s <-> starts_with_r_slash s = false.
Proof.
  split; [| apply replace_r_slash_fixed].
  destruct s as [| c1 [| c2 rest]]; cbn; try reflexivity.
  destruct ((c1 =? "r")%char && (c2 =? "/")%char); [| reflexivity].
  intros E. apply (f_equal String.length) in E. cbn in E. lia.
Qed.

Lemma map_replace_r_slash_fixed_iff (l : list string) :
  map replace_r_slash l = l
  <-> forallb (fun s => negb (starts_with_r_slash s)) l = true.
Proof.
  induction l as [| s l IH]; cbn; [tauto |].
  rewrite andb_true_iff, negb_true_iff, <- IH, <- replace_r_slash_fixed_iff.
  split.
  - intros E. injection E as E1 E2. split; assumption.
  - intros [E1 E2]. rewrite E1, E2. reflexivity.
Qed.

(** C6, as stated, fails in its second half: the normalization is not
    idempotent.  The list [["r/golang"]], which is what the normalization
    makes of [["r/r/golang"]], is changed when the normalization is applied
    to it again. *)
Lemma normalized_list_changes_again :
  format_subreddits (strings ["r/r/golang"]) = Resolved (strings ["r/golang"])
  /\ format_subreddits (strings ["r/golang"]) = Resolved (strings ["golang"])
  /\ strings ["golang"] <> strings ["r/golang"]
  /\ ~ (forall l,
          map replace_r_slash (map replace_r_slash l) = map replace_r_slash l).
Proof.
  split; [reflexivity |]. split; [reflexivity |]. split; [discriminate |].
  intros H. specialize (H ["r/r/golang"]). discriminate H.
Qed.

(** C6, amended. Whatever the rest of the state, submitting a form whose
    subreddits are [["r/golang", "rust"]] sends a payload whose subreddits
    are [["golang", "rust"]], and submitting [["golang", "rust"]] sends them
    as they are.  The normalization leaves a list unchanged exactly when
    none of its elements starts with [r/]; applying it twice gives the same
    as applying it once exactly when no element still starts with [r/]
    after the first application. *)
Theorem handleSubmit_golang_rust (w : World) :
  let payload subs :=
    {| name := name (form w); description := description (form w);
       keywords := format_keywords (keywords (form w));
       subreddits := subs |} in
  requests (start dialog_handleSubmit
              (idle (with_form (set_subreddits (strings ["r/golang"; "rust"])) w)))
  = [createProject (payload (strings ["golang"; "rust"]))]
  /\ requests (start dialog_handleSubmit
                 (idle (with_form (set_subreddits (strings ["golang"; "rust"])) w)))
     = [createProject (payload (strings ["golang"; "rust"]))]
  /\ format_subreddits (strings ["golang"; "rust"])
     = Resolved (strings ["golang"; "rust"])
  /\ (forall l,
        forallb (fun s => negb (starts_with_r_slash s)) l = true ->
        format_subreddits (strings l) = Resolved (strings l))
  /\ (forall l,
        map replace_r_slash l = l
        <-> forallb (fun s => negb (starts_with_r_slash s)) l = true)
  /\ (forall l,
        map replace_r_slash (map replace_r_slash l) = map replace_r_slash l
        <-> forallb (fun s => negb (starts_with_r_slash (replace_r_slash s))) l
            = true).
Proof.
  cbv zeta. rewrite !handleSubmit_requests.
  split; [reflexivity |]. split; [reflexivity |]. split; [reflexivity |].
  split; [| split].
  - intros l H. rewrite format_subreddits_strings.
    apply map_replace_r_slash_fixed_iff in H. rewrite H. reflexivity.
  - apply map_replace_r_slash_fixed_iff.
  - intros l. rewrite map_replace_r_slash_fixed_iff.
    induction l as [| s l IH]; cbn; [tauto |].
    rewrite !andb_true_iff, IH. tauto.
Qed.

Lemma handleSubmit_golang_rust_witness :
  format_subreddits (strings ["golang"; "rust"])
  = Resolved (strings ["golang"; "rust"]).
Proof.
  destruct (handleSubmit_golang_rust
              (review_world (strings ["golang"; "rust"])))
    as (_ & _ & _ & Hfixed & _).
  apply (Hfixed ["golang"; "rust"]). reflexivity.
Defined.

(** C10. Whatever the form holds, the keywords and the subreddits of a
    payload sent to [api.createProject] are arrays: a value of the form that
    is not an array is replaced by the empty array, and an array of keywords
    is sent as it is.  With such values the request is indeed sent. *)
Theorem handleSubmit_sends_arrays (w : World) :
  (forall d,
     In (createProject d) (requests (start dialog_handleSubmit (idle w))) ->
     Array_isArray (keywords d) = true
     /\ Array_isArray (subreddits d) = true
     /\ (Array_isArray (keywords (form w)) = false -> keywords d = JArr [])
     /\ (Array_isArray (keywords (form w)) = true ->
         keywords d = keywords (form w))
     /\ (Array_isArray (subreddits (form w)) = false ->
         subreddits d = JArr []))
  /\ (Array_isArray (subreddits (form w)) = false ->
      requests (start dialog_handleSubmit (idle w)) =
      [createProject {| name := name (form w);
                        description := description (form w);
                        keywords := format_keywords (keywords (form w));
                        subreddits := JArr [] |}]).
Proof.
  rewrite handleSubmit_requests. unfold formatData. split.
  - intros d Hin.
    destruct (format_subreddits (subreddits (form w))) as [subs | e] eqn:F;
      [| destruct Hin].
    destruct Hin as [E | []]. injection E as <-. cbn.
    split; [apply format_keywords_array |].
    split; [eapply format_subreddits_array; eassumption |].
    unfold format_keywords. split; [| split].
    + intros H. rewrite H. reflexivity.
    + intros H. rewrite H. reflexivity.
    + intros H. destruct (subreddits (form w)); cbn in H; try discriminate H;
        cbn in F; injection F as <-; reflexivity.
  - intros H. destruct (subreddits (form w)); cbn in H; try discriminate H;
      reflexivity.
Qed.

Lemma handleSubmit_sends_arrays_witness :
  requests (start dialog_handleSubmit (idle (review_world JUndefined))) =
  [createProject {| name := "gophers"; description := "Go programming";
                    keywords := strings ["go"]; subreddits := JArr [] |}].
Proof.
  apply (handleSubmit_sends_arrays (review_world JUndefined)). reflexivity.
Defined.

Lemma handleSubmit_strips_one_prefix_witness :
  exists d,
    requests (start dialog_handleSubmit
                (idle (review_world (strings ["r/golang"; "rust"]))))
    = [createProject d]
    /\ subreddits d = strings ["golang"; "rust"].
Proof.
  destruct (handleSubmit_strips_one_prefix
              (review_world (strings ["r/golang"; "rust"]))
              ["r/golang"; "rust"] eq_refl) as (d & Hreq & Hsubs & _).
  exists d. split; assumption.
Defined.

(** ** Deleting *)

(** C4 fails on the code when the reload fails too.  The page holds
    [project1] and the server cannot be reached, so the deletion is
    rejected and so is the [api.getProjects] of the [loadProjects] that the
    handler calls under its comment "Revert the optimistic update".  Nothing
    else restores the list: the server still holds [project1], and the page
    ends with the list from which it was removed. *)
Theorem unreachable_server_keeps_removal :
  let server_list := [project1] in
  let s1 := start (handleDeleteProject "p1") (idle (listing_world [project1])) in
  let s2 := settle 0 api_down s1 in
  let s3 := settle 0 api_down s2 in
  requests s1 = [deleteProject "p1"]
  /\ requests s2 = [getProjects]
  /\ pending s3 = []
  /\ projects (world s3) = []
  /\ projects (world s3) <> server_list.
Proof. cbv zeta. repeat split; try reflexivity. discriminate. Qed.

(** [handleDeleteProject] removes the project from the held list at once
    and issues the deletion.  When the deletion is rejected it reloads the
    list, and when this [api.getProjects] resolves, the list held in the end
    is exactly the list the server returned. *)
Lemma handleDeleteProject_failure_reloads
  (w : World) (projectId : string) (api1 api2 : Api) (e : error) :
  api1 (deleteProject projectId) = Rejected e ->
  let removed :=
    filter (fun p => negb (id p =? projectId)%string) (projects w) in
  let s1 := start (handleDeleteProject projectId) (idle w) in
  let s2 := settle 0 api1 s1 in
  let s3 := settle 0 api2 s2 in
  requests s1 = [deleteProject projectId]
  /\ projects (world s1) = removed
  /\ requests s2 = [getProjects]
  /\ (forall server_list,
        api2 getProjects = Resolved server_list ->
        projects (world s3) = server_list /\ pending s3 = []).
Proof.
  intros H. cbv zeta. unfold settle, start, handleDeleteProject. cbn.
  rewrite after_render_same by reflexivity. cbn. rewrite H. cbn.
  rewrite after_render_same by reflexivity. cbn.
  repeat (split; [reflexivity |]).
  destruct (api2 getProjects) as [l | e2]; cbn;
    rewrite after_render_same by reflexivity; cbn.
  - intros server_list E. injection E as <-. split; reflexivity.
  - intros server_list E. discriminate E.
Qed.

Lemma handleDeleteProject_failure_reloads_witness :
  let s1 := start (handleDeleteProject "p1") (idle (listing_world [project1])) in
  let s3 := settle 0 (api_up [project1]) (settle 0 api_down s1) in
  projects (world s3) = [project1] /\ pending s3 = [].
Proof.
  apply (handleDeleteProject_failure_reloads
           (listing_world [project1]) "p1" api_down (api_up [project1])
           (RemoteError "Network Error") eq_refl).
  reflexivity.
Defined.

(** ** One request of the dialog at a time *)

Lemma quiet_page_side (p : Pending) : quiet p -> page_side p.
Proof.
  intros [Hreq H]. split; [assumption |]. intros r w.
  destruct (H r w) as (w' & st & Hrun & Hl).
  exists w', [], st. repeat split; [assumption | assumption | constructor].
Qed.

Lemma quiet_well_behaved (p : Pending) : quiet p -> well_behaved p.
Proof.
  intros H. unfold well_behaved. rewrite (proj1 H). now apply quiet_page_side.
Qed.

Lemma quiet_not_from_dialog (ps : list Pending) :
  Forall quiet ps -> filter from_dialog (map req ps) = [].
Proof.
  induction 1 as [| p ps [Hp _] _ IH]; cbn; [reflexivity |].
  rewrite Hp. assumption.
Qed.

Lemma loading_unhandled (st : status unit) (w : World) :
  loading (unhandled st w) = loading w.
Proof. destruct st as [[a | e] | c k]; reflexivity. Qed.

Lemma loading_after_render (before after : World) :
  loading (after_render before after) = loading after.
Proof.
  unfold after_render.
  destruct (Bool.eqb (isCreateOpen before) (isCreateOpen after)); [reflexivity |].
  cbn. destruct (isCreateOpen after); reflexivity.
Qed.

Lemma start_unfold (t : Task unit) (s : Sys) w ps st :
  run_sync t (world s) = (w, ps, st) ->
  start t s = {| world := after_render (world s) (unhandled st w);
                 pending := pending s ++ ps ++ parked st |}.
Proof. intros H. unfold start. rewrite H. reflexivity. Qed.

Lemma dialog_count_app (ps qs : list Pending) :
  dialog_count (ps ++ qs) = dialog_count ps + dialog_count qs.
Proof.
  unfold dialog_count. rewrite map_app, filter_app, length_app. reflexivity.
Qed.

(** A handler keeps the invariant when the requests it leaves are well
    behaved and their number fits the busy flag it leaves. *)
Lemma start_keeps_invariant (t : Task unit) (s : Sys) w ps st :
  run_sync t (world s) = (w, ps, st) ->
  Forall well_behaved (pending s) ->
  Forall well_behaved (ps ++ parked st) ->
  dialog_count (pending s) + dialog_count (ps ++ parked st)
  = (if loading w then 1 else 0) ->
  busy_invariant (start t s).
Proof.
  intros Hrun Hold Hnew Hcount. rewrite (start_unfold _ _ _ _ _ Hrun).
  split; cbn [world pending].
  - apply Forall_app. split; assumption.
  - unfold in_flight. cbn [world pending].
    rewrite loading_after_render, loading_unhandled.
    rewrite dialog_count_app. assumption.
Qed.

(** A handler that neither issues a request nor touches the busy flag. *)
Lemma silent_keeps_invariant (t : Task unit) (s : Sys) w st :
  run_sync t (world s) = (w, [], Finished st) ->
  loading w = loading (world s) ->
  busy_invariant s -> busy_invariant (start t s).
Proof.
  intros Hrun Hl [Hwb Hc]. eapply start_keeps_invariant; try eassumption.
  - constructor.
  - rewrite Hl. cbn. rewrite Nat.add_0_r. exact Hc.
Qed.

Lemma loadProjects_runs (w : World) :
  exists k,
    run_sync loadProjects w = (w, [], Suspended getProjects k)
    /\ quiet (mkPending getProjects k).
Proof.
  eexists. split; [reflexivity |]. split; [reflexivity |].
  intros [l | e] w'; cbn; eexists _, _; split; reflexivity.
Qed.

Lemma handleDeleteProject_runs (projectId : string) (w : World) :
  exists w' k,
    run_sync (handleDeleteProject projectId) w
    = (w', [], Suspended (deleteProject projectId) k)
    /\ loading w' = loading w
    /\ page_side (mkPending (deleteProject projectId) k).
Proof.
  eexists _, _. split; [reflexivity |]. split; [reflexivity |].
  split; [reflexivity |].
  intros [[] | e] w'; cbn.
  - eexists _, [], _. repeat split; constructor.
  - eexists _, [_], _. split; [reflexivity |]. split; [reflexivity |].
    constructor; [| constructor]. split; [reflexivity |].
    intros [l | e'] w''; cbn; eexists _, _; split; reflexivity.
Qed.

Lemma handleAnalyze_runs (w : World) :
  isFormValid w = true ->
  exists w' k,
    run_sync handleAnalyze w
    = (w', [], Suspended (analyzeInitial (name (form w)) (description (form w))) k)
    /\ loading w' = true
    /\ releases (mkPending (analyzeInitial (name (form w)) (description (form w))) k).
Proof.
  intros H. unfold handleAnalyze. cbn -[isFormValid]. rewrite H. cbn.
  eexists _, _. split; [reflexivity |]. split; [reflexivity |].
  intros [data | e] w'; cbn; eexists _, _; split; reflexivity.
Qed.

Lemma handleSubmit_runs (w : World) :
  (exists w' st,
     run_sync dialog_handleSubmit w = (w', [], Finished st)
     /\ loading w' = false)
  \/ (exists w' d k,
        run_sync dialog_handleSubmit w = (w', [], Suspended (createProject d) k)
        /\ loading w' = true
        /\ releases (mkPending (createProject d) k)).
Proof.
  unfold dialog_handleSubmit, handleSubmit. cbn -[formatData].
  destruct (formatData (form w)) as [d | e]; cbn.
  - right. eexists _, _, _. split; [reflexivity |]. split; [reflexivity |].
    intros [p | e] w'; cbn; eexists _, _; split; reflexivity.
  - left. eexists _, _. split; reflexivity.
Qed.

Lemma Forall_remove_nth {A : Type} (P : A -> Prop) (i : nat) (l : list A) :
  Forall P l -> Forall P (remove_nth i l).
Proof.
  intros H. revert i. induction H as [| x l Hx Hl IH]; intros [| i]; cbn;
    try constructor; auto.
Qed.

Lemma dialog_count_remove_nth (i : nat) (l : list Pending) (p : Pending) :
  nth_error l i = Some p ->
  dialog_count l
  = (if from_dialog (req p) then 1 else 0) + dialog_count (remove_nth i l).
Proof.
  revert i. induction l as [| q l IH]; intros [| i] H; cbn in H;
    try discriminate H.
  - injection H as ->. unfold dialog_count. cbn.
    destruct (from_dialog (req p)); reflexivity.
  - specialize (IH i H). unfold dialog_count in *. cbn.
    destruct (from_dialog (req q)); cbn; rewrite IH; lia.
Qed.

Lemma settle_keeps_invariant (i : nat) (api : Api) (s : Sys) :
  busy_invariant s -> busy_invariant (settle i api s).
Proof.
  intros [Hwb Hc]. unfold settle.
  destruct (nth_error (pending s) i) as [p |] eqn:Hp; [| split; assumption].
  assert (Hgood : well_behaved p).
  { eapply Forall_forall; [exact Hwb |]. eapply nth_error_In; exact Hp. }
  pose proof (dialog_count_remove_nth _ _ _ Hp) as Hrem.
  unfold in_flight in Hc. unfold well_behaved in Hgood.
  destruct (from_dialog (req p)) eqn:Hd.
  - destruct (Hgood (api (req p)) (world s)) as (w' & st & Hrun & Hl).
    eapply start_keeps_invariant; cbn [world pending parked app];
      try eassumption.
    + now apply Forall_remove_nth.
    + constructor.
    + rewrite Hl.
      change (dialog_count ([] ++ parked (Finished st))) with 0.
      destruct (loading (world s)); lia.
  - destruct Hgood as [_ Hgood].
    destruct (Hgood (api (req p)) (world s)) as (w' & ps & st & Hrun & Hl & Hq).
    eapply start_keeps_invariant; cbn [world pending parked];
      try eassumption.
    + now apply Forall_remove_nth.
    + rewrite app_nil_r. eapply Forall_impl; [| exact Hq].
      intros q. apply quiet_well_behaved.
    + rewrite app_nil_r, Hl. unfold dialog_count at 2.
      rewrite (quiet_not_from_dialog _ Hq). cbn [length]. lia.
Qed.

Lemma mounted_invariant : busy_invariant mounted.
Proof.
  split; [| reflexivity]. cbn. constructor; [| constructor].
  apply quiet_well_behaved. split; [reflexivity |].
  intros [l | e] w; cbn; eexists _, _; split; reflexivity.
Qed.

Lemma fire_keeps_invariant (e : Event) (s : Sys) :
  busy_invariant s -> enabled e s = true -> busy_invariant (fire e s).
Proof.
  intros Hinv Hen. destruct e; cbn [fire];
    try (eapply silent_keeps_invariant; [reflexivity | reflexivity | assumption]).
  - (* ClickAnalyze *)
    unfold enabled, analyze_disabled in Hen. cbv zeta in Hen.
    rewrite !andb_true_iff, !negb_true_iff, orb_false_iff, negb_false_iff in Hen.
    destruct Hen as [_ [Hvalid Hidle]]. destruct Hinv as [Hwb Hc].
    destruct (handleAnalyze_runs _ Hvalid) as (w' & k & Hrun & Hl & Hrel).
    eapply start_keeps_invariant; try eassumption.
    + constructor; [| constructor]. exact Hrel.
    + unfold in_flight in Hc. rewrite Hc, Hidle, Hl. reflexivity.
  - (* ClickCreate *)
    unfold enabled, submit_disabled in Hen. cbv zeta in Hen.
    rewrite !andb_true_iff, !negb_true_iff in Hen.
    destruct Hen as [_ Hidle]. destruct Hinv as [Hwb Hc].
    unfold in_flight in Hc. rewrite Hidle in Hc.
    destruct (handleSubmit_runs (world s))
      as [(w' & st & Hrun & Hl) | (w' & d & k & Hrun & Hl & Hrel)].
    + eapply start_keeps_invariant; try eassumption.
      * constructor.
      * rewrite Hc, Hl. reflexivity.
    + eapply start_keeps_invariant; try eassumption.
      * constructor; [| constructor]. exact Hrel.
      * rewrite Hc, Hl. reflexivity.
  - (* ClickDelete *)
    destruct Hinv as [Hwb Hc].
    destruct (handleDeleteProject_runs projectId (world s))
      as (w' & k & Hrun & Hl & Hside).
    eapply start_keeps_invariant; try eassumption.
    + constructor; [| constructor]. exact Hside.
    + rewrite Hl. unfold dialog_count at 2. cbn. rewrite Nat.add_0_r. exact Hc.
  - (* Settled *)
    now apply settle_keeps_invariant.
Qed.

Lemma reachable_invariant (s : Sys) : reachable s -> busy_invariant s.
Proof.
  induction 1 as [| e s _ IH Hen];
    [apply mounted_invariant | now apply fire_keeps_invariant].
Qed.

Lemma reachable_run (es : list Event) (s : Sys) :
  reachable s -> feasible es s = true -> reachable (run es s).
Proof.
  revert s. induction es as [| e es IH]; intros s Hs Hf; [exact Hs |].
  cbn in Hf. apply andb_true_iff in Hf. destruct Hf as [He Hf].
  cbn. apply IH; [| exact Hf]. now apply reachable_fire.
Qed.

(** C9. In every state the page can reach, at most one analysis or creation
    request is in flight, and the busy flag [loading] is up exactly while
    one is; then the buttons that start an analysis and a submit are
    disabled, so neither [handleAnalyze] nor [handleSubmit] can be started
    before the request in flight is settled. *)
Theorem busy_flag_guards_requests (s : Sys) :
  reachable s ->
  in_flight s <= 1
  /\ (in_flight s = 1 <-> loading (world s) = true)
  /\ (loading (world s) = true ->
      analyze_disabled (world s) = true
      /\ submit_disabled (world s) = true
      /\ enabled ClickAnalyze s = false
      /\ enabled ClickCreate s = false).
Proof.
  intros Hs. destruct (reachable_invariant s Hs) as [_ Hc].
  split; [rewrite Hc; destruct (loading (world s)); lia |].
  split; [rewrite Hc; destruct (loading (world s)); split; congruence |].
  intros Hl. unfold enabled, analyze_disabled, submit_disabled. rewrite Hl.
  rewrite !orb_true_r. cbn. rewrite !andb_false_r. repeat split; reflexivity.
Qed.

Lemma busy_flag_guards_requests_witness :
  let s := run analysis_started mounted in
  requests s = [analyzeInitial "gophers" "Go programming"]
  /\ in_flight s = 1
  /\ enabled ClickAnalyze s = false.
Proof.
  cbv zeta. split; [reflexivity |].
  destruct (busy_flag_guards_requests (run analysis_started mounted))
    as (_ & Hone & Hbusy).
  - apply reachable_run; [apply reachable_mounted | reflexivity].
  - split; [apply Hone; reflexivity | apply Hbusy; reflexivity].
Defined.

(** ** Closing the dialog *)

(** Closing the open dialog puts the flow back to the Draft step with the
    default values in the form, whatever the state, and opening it again
    right away shows this empty draft. *)
Lemma close_resets (s : Sys) :
  isCreateOpen (world s) = true ->
  let closed := fire CloseDialog s in
  let reopened := fire ClickNewProject closed in
  isCreateOpen (world closed) = false
  /\ step (world closed) = 1
  /\ form (world closed) = defaultValues
  /\ isCreateOpen (world reopened) = true
  /\ step (world reopened) = 1
  /\ form (world reopened) = defaultValues.
Proof.
  intros H. cbv zeta. unfold fire, start. cbn. unfold after_render. cbn.
  rewrite H. cbn. repeat split; reflexivity.
Qed.

(** C7 fails on the code when the dialog is closed while the analysis is in
    flight.  The run is one the page allows.  Right after the close the flow
    is in Draft with an empty form, and the analysis request is still
    pending; its answer, arriving at the closed dialog, is written into the
    form and moves the flow to Review, so the dialog opens again in step 2
    with the keywords and subreddits found for the discarded draft next to
    an empty name and description. *)
Theorem late_answer_after_close :
  let closed := run close_while_analyzing mounted in
  let reopened := run reopen_after_answer closed in
  feasible (close_while_analyzing ++ reopen_after_answer) mounted = true
  /\ (isCreateOpen (world closed) = false
      /\ step (world closed) = 1
      /\ form (world closed) = defaultValues
      /\ requests closed = [analyzeInitial "gophers" "Go programming"])
  /\ (isCreateOpen (world reopened) = true
      /\ step (world reopened) = 2
      /\ form (world reopened) =
         {| name := ""; description := "";
            keywords := strings ["go"];
            subreddits := strings ["r/golang"; "rust"] |}
      /\ requests reopened = []).
Proof. cbv zeta. repeat split; reflexivity. Qed.

(** ** The theorems at concrete states *)

Lemma handleAnalyze_validates_witness :
  requests (start handleAnalyze (idle (draft_world "gophers" "too short"))) = []
  /\ requests (start handleAnalyze (idle (draft_world "" "Go programming"))) = []
  /\ requests (start handleAnalyze (idle (draft_world "gophers" "Go programming")))
     = [analyzeInitial "gophers" "Go programming"].
Proof.
  split; [| split].
  - apply (handleAnalyze_validates (draft_world "gophers" "too short")).
    right. cbn. lia.
  - apply (handleAnalyze_validates (draft_world "" "Go programming")).
    left. reflexivity.
  - apply (handleAnalyze_validates (draft_world "gophers" "Go programming")).
    split; [discriminate | cbn; lia].
Defined.

Lemma handleAnalyze_outcome_witness :
  let w := draft_world "gophers" "Go programming" in
  let s2 := settle 0 (api_up []) (start handleAnalyze (idle w)) in
  step (world s2) = 2
  /\ keywords (form (world s2)) = strings ["go"]
  /\ subreddits (form (world s2)) = strings ["r/golang"; "rust"]
  /\ name (form (world s2)) = "gophers"
  /\ description (form (world s2)) = "Go programming"
  /\ log (world s2) = [].
Proof.
  cbv zeta.
  destruct (handleAnalyze_outcome
              (draft_world "gophers" "Go programming") (api_up [])
              eq_refl eq_refl) as (_ & Hok & _).
  apply (Hok {| data_keywords := strings ["go"];
                data_subreddits := strings ["r/golang"; "rust"] |}).
  reflexivity.
Defined.

Lemma loadProjects_failure_keeps_list_witness :
  let w := listing_world [project1] in
  let s2 := settle 0 api_down (start loadProjects (idle w)) in
  projects (world s2) = [project1].
Proof.
  cbv zeta.
  apply (loadProjects_failure_keeps_list
           (listing_world [project1]) api_down (RemoteError "Network Error")
           eq_refl).
Defined.

Lemma handleSubmit_failure_keeps_draft_witness :
  let w := review_world (strings ["r/golang"; "rust"]) in
  let s1 := start dialog_handleSubmit (idle w) in
  let s2 := settle 0 api_down s1 in
  step (world s2) = 2
  /\ form (world s2) = form w
  /\ isCreateOpen (world s2) = true
  /\ projects (world s2) = [].
Proof.
  cbv zeta.
  apply (handleSubmit_failure_keeps_draft
           (review_world (strings ["r/golang"; "rust"])) api_down
           (RemoteError "Network Error") (fun _ => eq_refl)).
Defined.

(** ** The successful paths *)

(** X1. A submit from the open dialog whose [api.createProject] resolves:
    while the request is in flight the list is untouched (no optimistic
    insert); afterwards the project the server returned is the last of the
    list, the dialog is closed, which puts the flow back to an empty Draft,
    the busy flag is down, and the success is announced twice, once by the
    page and once by the dialog. *)
Theorem handleSubmit_success (w : World) (api : Api) (d : ProjectData)
  (newProject : Project) :
  isCreateOpen w = true ->
  formatData (form w) = Resolved d ->
  api (createProject d) = Resolved newProject ->
  let s1 := start dialog_handleSubmit (idle w) in
  let s2 := settle 0 api s1 in
  requests s1 = [createProject d]
  /\ projects (world s1) = projects w
  /\ loading (world s1) = true
  /\ projects (world s2) = projects w ++ [newProject]
  /\ isCreateOpen (world s2) = false
  /\ step (world s2) = 1
  /\ form (world s2) = defaultValues
  /\ loading (world s2) = false
  /\ loadingMessage (world s2) = ""
  /\ pending s2 = []
  /\ log (world s2) =
     log w ++ [ToastSuccess "Project created successfully!";
               ToastSuccess "Project created successfully!"].
Proof.
  intros Hopen F H. cbv zeta.
  unfold settle, start, dialog_handleSubmit, handleSubmit.
  cbn -[formatData]. rewrite F. cbn.
  rewrite after_render_same by reflexivity. cbn. rewrite H. cbn.
  unfold after_render. cbn. rewrite Hopen. cbn.
  repeat split; try reflexivity. rewrite <- app_assoc. reflexivity.
Qed.

Lemma handleSubmit_success_witness :
  let w := review_world (strings ["r/golang"; "rust"]) in
  let s2 := settle 0 (api_up []) (start dialog_handleSubmit (idle w)) in
  projects (world s2) =
  [{| id := "p2";
      data := {| name := "gophers"; description := "Go programming";
                 keywords := strings ["go"];
                 subreddits := strings ["golang"; "rust"] |} |}]
  /\ form (world s2) = defaultValues.
Proof.
  cbv zeta.
  destruct (handleSubmit_success
              (review_world (strings ["r/golang"; "rust"])) (api_up [])
              {| name := "gophers"; description := "Go programming";
                 keywords := strings ["go"];
                 subreddits := strings ["golang"; "rust"] |}
              {| id := "p2";
                 data := {| name := "gophers"; description := "Go programming";
                            keywords := strings ["go"];
                            subreddits := strings ["golang"; "rust"] |} |}
              eq_refl eq_refl eq_refl)
    as (_ & _ & _ & Hp & _ & _ & Hf & _).
  split; assumption.
Defined.

(** X2. A deletion that the server accepts: the held list loses exactly the
    projects with the given id, the others stay in their order, the list is
    not reloaded, and one success toast is shown.  For an id that no held
    project has, the request is sent all the same and the list stays as it
    is. *)
Theorem handleDeleteProject_success (w : World) (projectId : string) (api : Api) :
  api (deleteProject projectId) = Resolved tt ->
  let s1 := start (handleDeleteProject projectId) (idle w) in
  let s2 := settle 0 api s1 in
  requests s1 = [deleteProject projectId]
  /\ pending s2 = []
  /\ projects (world s2)
     = filter (fun p => negb (id p =? projectId)%string) (projects w)
  /\ (forall p, In p (projects (world s2)) <->
                In p (projects w) /\ id p <> projectId)
  /\ ((forall p, In p (projects w) -> id p <> projectId) ->
      projects (world s2) = projects w)
  /\ log (world s2) = log w ++ [ToastSuccess "Project deleted successfully"].
Proof.
  intros H. cbv zeta. unfold settle, start, handleDeleteProject. cbn.
  rewrite after_render_same by reflexivity. cbn. rewrite H. cbn.
  rewrite after_render_same by reflexivity. cbn.
  repeat (split; [reflexivity |]). split; [| split; [| reflexivity]].
  - intros p. rewrite filter_In, negb_true_iff, String.eqb_neq. reflexivity.
  - intros Hfresh. induction (projects w) as [| q l IH]; [reflexivity |].
    cbn. destruct (String.eqb_spec (id q) projectId) as [E | N]; cbn.
    + exfalso. apply (Hfresh q); [left; reflexivity | exact E].
    + f_equal. apply IH. intros p Hp. apply Hfresh. right. exact Hp.
Qed.

Lemma handleDeleteProject_success_witness :
  let w := listing_world [project1] in
  let s2 := settle 0 (api_up []) (start (handleDeleteProject "p1") (idle w)) in
  pending s2 = [] /\ projects (world s2) = [].
Proof.
  cbv zeta.
  destruct (handleDeleteProject_success (listing_world [project1]) "p1"
              (api_up []) eq_refl) as (_ & Hp & Hl & _).
  split; assumption.
Defined.

(** X3. A load that the server answers replaces the held list by the
    answer, whatever was held before, takes the spinner down and shows no
    toast. *)
Theorem loadProjects_success (w : World) (api : Api)
  (fetchedProjects : list Project) :
  api getProjects = Resolved fetchedProjects ->
  let s2 := settle 0 api (start loadProjects (idle w)) in
  projects (world s2) = fetchedProjects
  /\ isLoading (world s2) = false
  /\ log (world s2) = log w
  /\ pending s2 = []
  /\ page_view (world s2) =
     match fetchedProjects with
     | [] => NoProjectsYet
     | _ :: _ => ProjectGrid fetchedProjects
     end.
Proof.
  intros H. cbv zeta. unfold settle, start, loadProjects. cbn.
  rewrite after_render_same by reflexivity. cbn. rewrite H. cbn.
  rewrite after_render_same by reflexivity. cbn.
  repeat split; reflexivity.
Qed.

Lemma loadProjects_success_witness :
  let s2 := settle 0 (api_up [project1])
                   (start loadProjects (idle (listing_world []))) in
  projects (world s2) = [project1]
  /\ page_view (world s2) = ProjectGrid [project1].
Proof.
  cbv zeta.
  destruct (loadProjects_success (listing_world []) (api_up [project1])
              [project1] eq_refl) as (Hp & _ & _ & _ & Hv).
  split; assumption.
Defined.

Lemma filter_other_ids (projectId : string) (l : list Project) :
  (forall q, In q l -> id q <> projectId) ->
  filter (fun p => negb (id p =? projectId)%string) l = l.
Proof.
  intros Hfresh. induction l as [| q l IH]; [reflexivity |].
  cbn. destruct (String.eqb_spec (id q) projectId) as [E | N]; cbn.
  - exfalso. apply (Hfresh q); [left; reflexivity | exact E].
  - f_equal. apply IH. intros p Hp. apply Hfresh. right. exact Hp.
Qed.

(** X4. Creating a project and then deleting the project the server
    returned, both accepted, leaves the held list without any project of
    that id: the list as it was before, when the id the server chose was
    new to the list. *)
Theorem create_then_delete (w : World) (api1 api2 : Api) (d : ProjectData)
  (newProject : Project) :
  isCreateOpen w = true ->
  formatData (form w) = Resolved d ->
  api1 (createProject d) = Resolved newProject ->
  api2 (deleteProject (id newProject)) = Resolved tt ->
  let s2 := settle 0 api1 (start dialog_handleSubmit (idle w)) in
  let s4 := settle 0 api2 (start (handleDeleteProject (id newProject)) s2) in
  pending s4 = []
  /\ projects (world s4)
     = filter (fun p => negb (id p =? id newProject)%string) (projects w)
  /\ ((forall q, In q (projects w) -> id q <> id newProject) ->
      projects (world s4) = projects w).
Proof.
  intros Hopen F H1 H2. cbv zeta.
  unfold settle, start, dialog_handleSubmit, handleSubmit, handleDeleteProject.
  cbn -[formatData]. rewrite F. cbn.
  rewrite after_render_same by reflexivity. cbn. rewrite H1. cbn.
  unfold after_render. cbn. rewrite Hopen. cbn. rewrite H2. cbn.
  rewrite filter_app. cbn. rewrite String.eqb_refl. cbn. rewrite app_nil_r.
  split; [reflexivity |]. split; [reflexivity |].
  apply filter_other_ids.
Qed.

Lemma create_then_delete_witness :
  let w := review_world (strings ["golang"]) in
  let s2 := settle 0 (api_up []) (start dialog_handleSubmit (idle w)) in
  let s4 := settle 0 (api_up []) (start (handleDeleteProject "p2") s2) in
  projects (world s2) <> [] /\ projects (world s4) = [].
Proof.
  cbv zeta. split; [discriminate |].
  refine (proj2 (proj2 (create_then_delete
           (review_world (strings ["golang"])) (api_up []) (api_up [])
           {| name := "gophers"; description := "Go programming";
              keywords := strings ["go"]; subreddits := strings ["golang"] |}
           {| id := "p2";
              data := {| name := "gophers"; description := "Go programming";
                         keywords := strings ["go"];
                         subreddits := strings ["golang"] |} |}
           eq_refl eq_refl eq_refl eq_refl)) _).
  intros q [].
Defined.

(** ** Values that are not what the types promise *)

Lemma map_replace_non_string (l : list jsval) :
  existsb (fun v => negb (is_string v)) l = true ->
  map_replace l = Rejected (TypeError "s.replace is not a function").
Proof.
  induction l as [| v l IH]; cbn; [discriminate |].
  destruct v; cbn; try reflexivity.
  intros H. rewrite (IH H). reflexivity.
Qed.

Lemma map_replace_all_strings (l l' : list jsval) :
  map_replace l = Resolved l' ->
  exists ss, l = map JStr ss /\ l' = map JStr (map replace_r_slash ss).
Proof.
  revert l'. induction l as [| v l IH]; cbn; intros l' H.
  - injection H as <-. exists []. split; reflexivity.
  - destruct v; cbn in H; try discriminate H.
    destruct (map_replace l) as [l'' |]; [| discriminate H].
    injection H as <-. destruct (IH l'' eq_refl) as (ss & -> & ->).
    exists (s :: ss). split; reflexivity.
Qed.

(** X5. When the subreddits of the form are an array with an element that
    is not a string, the [replace] call throws inside the [try] of
    [handleSubmit]: no request is sent, the error goes to the console and to
    the failure toast, the busy flag is taken down again, and the step, the
    form, the dialog and the list are untouched. *)
Theorem handleSubmit_non_string_subreddit (w : World) (l : list jsval) :
  subreddits (form w) = JArr l ->
  existsb (fun v => negb (is_string v)) l = true ->
  let s := start dialog_handleSubmit (idle w) in
  requests s = []
  /\ log (world s) =
     log w ++ [ConsoleError "Error creating project:";
               ToastError "Failed to create project. Please try again."]
  /\ loading (world s) = false
  /\ loadingMessage (world s) = ""
  /\ step (world s) = step w
  /\ form (world s) = form w
  /\ isCreateOpen (world s) = isCreateOpen w
  /\ projects (world s) = projects w.
Proof.
  intros Hl Hbad. cbv zeta.
  assert (F : formatData (form w)
              = Rejected (TypeError "s.replace is not a function")).
  { unfold formatData, format_subreddits.
    rewrite Hl, (map_replace_non_string _ Hbad). reflexivity. }
  unfold start, dialog_handleSubmit, handleSubmit.
  cbn -[formatData]. rewrite F. cbn.
  rewrite after_render_same by reflexivity. cbn.
  repeat split; try reflexivity. rewrite <- app_assoc. reflexivity.
Qed.

Lemma handleSubmit_non_string_subreddit_witness :
  let w := review_world (JArr [JStr "golang"; JNull]) in
  requests (start dialog_handleSubmit (idle w)) = [].
Proof.
  cbv zeta.
  apply (handleSubmit_non_string_subreddit
           (review_world (JArr [JStr "golang"; JNull]))
           [JStr "golang"; JNull] eq_refl eq_refl).
Defined.

(** ** Retrying and going back *)

(** X6. After a rejected analysis the button that was disabled while the
    request was in flight is enabled again, and a second click issues the
    same request. *)
Theorem analysis_can_be_retried (w : World) (api : Api) (e : error) :
  enabled ClickAnalyze (idle w) = true ->
  api (analyzeInitial (name (form w)) (description (form w))) = Rejected e ->
  let s1 := fire ClickAnalyze (idle w) in
  let s2 := fire (Settled 0 api) s1 in
  enabled ClickAnalyze s1 = false
  /\ enabled ClickAnalyze s2 = true
  /\ requests (fire ClickAnalyze s2) = requests s1.
Proof.
  intros Hen H. cbv zeta.
  unfold enabled, analyze_disabled in Hen. cbv zeta in Hen. cbn [world idle] in Hen.
  rewrite !andb_true_iff, !negb_true_iff, orb_false_iff, negb_false_iff in Hen.
  destruct Hen as [[[Hloaded Hopen] Hstep] [Hvalid Hidle]].
  unfold fire, settle, start, handleAnalyze, enabled, analyze_disabled.
  cbn -[isFormValid]. rewrite Hvalid. cbn -[isFormValid].
  rewrite after_render_same by reflexivity. cbn -[isFormValid].
  rewrite H. cbn -[isFormValid].
  rewrite after_render_same by reflexivity. cbn -[isFormValid].
  change (isFormValid _) with (isFormValid w).
  rewrite Hvalid, Hloaded, Hopen, Hstep. cbn.
  repeat split; reflexivity.
Qed.

Lemma analysis_can_be_retried_witness :
  let w := draft_world "gophers" "Go programming" in
  let s2 := fire (Settled 0 api_down) (fire ClickAnalyze (idle w)) in
  enabled ClickAnalyze s2 = true.
Proof.
  cbv zeta.
  apply (analysis_can_be_retried (draft_world "gophers" "Go programming")
           api_down (RemoteError "Network Error") eq_refl eq_refl).
Defined.

(** X7. Back from the Review step shows the Draft step with the whole form
    as it was, keywords and subreddits included; a new analysis from there
    replaces them by those of the new answer and leads to Review again. *)
Theorem back_then_analyze_again (w : World) (api : Api) (data : AnalysisData) :
  enabled ClickBack (idle w) = true ->
  isFormValid w = true ->
  api (analyzeInitial (name (form w)) (description (form w))) = Resolved data ->
  let s1 := fire ClickBack (idle w) in
  let s3 := fire (Settled 0 api) (fire ClickAnalyze s1) in
  step (world s1) = 1
  /\ form (world s1) = form w
  /\ enabled ClickAnalyze s1 = true
  /\ step (world s3) = 2
  /\ form (world s3) =
     {| name := name (form w); description := description (form w);
        keywords := data_keywords data;
        subreddits := data_subreddits data |}.
Proof.
  intros Hen Hvalid H. cbv zeta.
  unfold enabled in Hen. cbv zeta in Hen. cbn [world idle] in Hen.
  rewrite !andb_true_iff, !negb_true_iff in Hen.
  destruct Hen as [[[Hloaded Hopen] Hstep] Hidle].
  unfold fire, settle, start, handleAnalyze, enabled, analyze_disabled.
  cbn -[isFormValid].
  rewrite after_render_same by reflexivity. cbn -[isFormValid].
  change (isFormValid _) with (isFormValid w).
  rewrite Hvalid. cbn -[isFormValid].
  rewrite after_render_same by reflexivity. cbn -[isFormValid].
  rewrite H. cbn -[isFormValid].
  rewrite after_render_same by reflexivity. cbn.
  rewrite Hloaded, Hopen, Hidle. repeat split; reflexivity.
Qed.

Lemma back_then_analyze_again_witness :
  let w := review_world (strings ["r/golang"]) in
  let s3 := fire (Settled 0 (api_up []))
                 (fire ClickAnalyze (fire ClickBack (idle w))) in
  step (world s3) = 2
  /\ subreddits (form (world s3)) = strings ["r/golang"; "rust"].
Proof.
  cbv zeta.
  destruct (back_then_analyze_again
              (review_world (strings ["r/golang"])) (api_up [])
              {| data_keywords := strings ["go"];
                 data_subreddits := strings ["r/golang"; "rust"] |}
              eq_refl eq_refl eq_refl) as (_ & _ & _ & Hs & Hf).
  split; [exact Hs |]. rewrite Hf. reflexivity.
Defined.

(** ** Showing and normalizing a subreddit *)

(** X8. The badge of the Review step and the normalization of the payload
    undo each other: the normalization of a badge text is the subreddit
    shown, so that a list of badge texts is sent as the list of the names;
    and a string that starts with [r/] is the badge text of what the
    normalization leaves of it. *)
Theorem badge_and_normalization (s : string) :
  replace_r_slash (subreddit_badge s) = s
  /\ starts_with_r_slash (subreddit_badge s) = true
  /\ (forall l, format_subreddits (strings (map subreddit_badge l))
                = Resolved (strings l))
  /\ (starts_with_r_slash s = true ->
      subreddit_badge (replace_r_slash s) = s).
Proof.
  split; [reflexivity |]. split; [reflexivity |]. split.
  - intros l. rewrite format_subreddits_strings. do 2 f_equal.
    rewrite map_map. induction l as [| x l IH]; [reflexivity |].
    cbn [map]. rewrite IH. reflexivity.
  - destruct s as [| c1 [| c2 rest]]; cbn; try discriminate.
    intros H. rewrite H. apply andb_true_iff in H. destruct H as [E1 E2].
    apply Ascii.eqb_eq in E1, E2. subst c1 c2. reflexivity.
Qed.

Lemma badge_and_normalization_witness :
  subreddit_badge (replace_r_slash "r/golang") = "r/golang".
Proof.
  apply (badge_and_normalization "r/golang"). reflexivity.
Defined.

(** ** Properties of every reachable state *)

Section Guarded.

Variable Q : World -> Prop.
Variable T : error -> Prop.
Variable C : request -> Prop.

(** The report of an unhandled rejection keeps [Q]. *)
Hypothesis Q_unhandled :
  forall e w, T e -> Q w -> Q (with_effect (UnhandledRejection e) w).

Lemma unhandled_keeps (st : status unit) (w : World) :
  status_ok Q T C st -> Q w -> Q (unhandled st w).
Proof.
  destruct st as [[a | e] | c k]; cbn; intros Hst Hw;
    [assumption | now apply Q_unhandled | assumption].
Qed.

Lemma parked_hered (st : status unit) :
  status_ok Q T C st -> Forall (hered Q T C) (parked st).
Proof.
  destruct st as [[a | e] | c k]; cbn; intros Hst; constructor;
    [exact Hst | constructor].
Qed.

(** What [keeps] means for a run. *)
Lemma keeps_run (A : Type) (t : Task A) :
  keeps Q T C A t ->
  forall w w' ps st,
    run_sync t w = (w', ps, st) ->
    (Q w -> Q w') /\ Forall (hered Q T C) ps /\ status_ok Q T C st.
Proof.
  induction 1 as [A a | A e He | A k _ IH | A f k Hf _ IH
                  | A c k Hc Hk _ | A t k _ IHt _ IHk];
    intros w w' ps st Hrun; cbn in Hrun.
  - injection Hrun as <- <- <-. repeat split; [auto | constructor].
  - injection Hrun as <- <- <-. repeat split; [auto | constructor | exact He].
  - exact (IH w _ _ _ _ Hrun).
  - destruct (IH _ _ _ _ Hrun) as (Hq & Hps & Hst).
    repeat split; [intros Hw; apply Hq, Hf, Hw | exact Hps | exact Hst].
  - injection Hrun as <- <- <-.
    repeat split; [auto | constructor | exact Hc | exact Hk].
  - destruct (run_sync t w) as [[w1 ps1] st1] eqn:E1.
    destruct (run_sync k (unhandled st1 w1)) as [[w2 ps2] st2] eqn:E2.
    injection Hrun as <- <- <-.
    destruct (IHt _ _ _ _ E1) as (Hq1 & Hps1 & Hst1).
    destruct (IHk _ _ _ _ E2) as (Hq2 & Hps2 & Hst2).
    repeat split.
    + intros Hw. apply Hq2, unhandled_keeps; [exact Hst1 | apply Hq1, Hw].
    + apply Forall_app. split; [exact Hps1 |].
      apply Forall_app. split; [now apply parked_hered | exact Hps2].
    + exact Hst2.
Qed.

(** The effect of the dialog keeps [Q]. *)
Hypothesis Q_resetOnClose : keeps Q T C unit resetOnClose.

Lemma after_render_keeps (before after : World) :
  Q after -> Q (after_render before after).
Proof.
  intros H. unfold after_render.
  destruct (Bool.eqb (isCreateOpen before) (isCreateOpen after)); [exact H |].
  destruct (run_sync resetOnClose after) as [[w ps] st] eqn:E.
  now apply (keeps_run _ _ Q_resetOnClose _ _ _ _ E).
Qed.

Lemma start_guarded_run (t : Task unit) (s : Sys) w ps st :
  run_sync t (world s) = (w, ps, st) ->
  Q w -> Forall (hered Q T C) ps -> status_ok Q T C st ->
  Forall (hered Q T C) (pending s) ->
  guarded Q T C (start t s).
Proof.
  intros Hrun Hw Hps Hst Hold. rewrite (start_unfold _ _ _ _ _ Hrun). split; cbn.
  - apply after_render_keeps, unhandled_keeps; assumption.
  - apply Forall_app. split; [exact Hold |].
    apply Forall_app. split; [exact Hps | now apply parked_hered].
Qed.

Lemma start_guarded (t : Task unit) (s : Sys) :
  keeps Q T C unit t -> guarded Q T C s -> guarded Q T C (start t s).
Proof.
  intros Ht [Hw Hold].
  destruct (run_sync t (world s)) as [[w ps] st] eqn:E.
  destruct (keeps_run _ _ Ht _ _ _ _ E) as (Hq & Hps & Hst).
  eapply start_guarded_run; eauto.
Qed.

Lemma settle_guarded (i : nat) (api : Api) (s : Sys) :
  guarded Q T C s -> guarded Q T C (settle i api s).
Proof.
  intros [Hw Hold]. unfold settle.
  destruct (nth_error (pending s) i) as [p |] eqn:Hp; [| split; assumption].
  apply start_guarded.
  - eapply Forall_forall in Hold; [| eapply nth_error_In; exact Hp].
    apply Hold.
  - split; [exact Hw | now apply Forall_remove_nth].
Qed.

Lemma fire_handler (e : Event) (s : Sys) :
  fire e s = match e with
             | Settled i api => settle i api s
             | _ => start (handler e) s
             end.
Proof. destruct e; reflexivity. Qed.

Lemma fire_guarded (e : Event) (s : Sys) :
  keeps Q T C unit (handler e) ->
  guarded Q T C s -> guarded Q T C (fire e s).
Proof.
  intros He Hs. rewrite fire_handler.
  destruct e; try (now apply start_guarded). now apply settle_guarded.
Qed.

End Guarded.

(** Reduce a handler to its steps and check each of them; [side] proves
    that an update keeps the property, and that a request or an error is
    allowed. *)
Ltac keeps_steps side :=
  repeat lazymatch goal with
    | |- keeps _ _ _ _ (Ret _) => apply keeps_Ret
    | |- keeps _ _ _ _ (Throw _) => apply keeps_Throw; side
    | |- keeps _ _ _ _ (Modify _ _) => apply keeps_Modify; [side |]
    | |- keeps _ _ _ _ (Get _) => apply keeps_Get; intros ?
    | |- keeps _ _ _ _ (Await _ _) => apply keeps_Await; [side | intros [? | ?]]
    | |- keeps _ _ _ _ (Spawn _ _) => apply keeps_Spawn
    | |- keeps _ _ _ _ (if ?b then _ else _) => destruct b; cbv iota
    | |- keeps _ _ _ _ (bind (lift ?r) _) =>
        destruct r; cbn -[formatData isFormValid]
    | |- keeps _ _ _ _ (try_catch (bind (lift ?r) _) _) =>
        destruct r; cbn -[formatData isFormValid]
    | |- keeps _ _ _ _ (try_finally (try_catch (bind (lift ?r) _) _) _) =>
        destruct r; cbn -[formatData isFormValid]
    | |- keeps ?Q ?T ?C ?A ?t =>
        first [ progress cbn -[formatData isFormValid]
              | let t' := eval hnf in t in
                progress change (keeps Q T C A t') ]
    end.

Ltac keeps_handlers side :=
  unfold handler, pageMounted, spawn, loadProjects, dialog_handleSubmit,
    handleSubmit, handleCreateProject, handleDeleteProject, handleAnalyze,
    resetOnClose;
  keeps_steps side.

Lemma reachable_guarded (Q : World -> Prop) (T : error -> Prop)
  (C : request -> Prop) :
  (forall e w, T e -> Q w -> Q (with_effect (UnhandledRejection e) w)) ->
  keeps Q T C unit resetOnClose ->
  keeps Q T C unit pageMounted ->
  (forall e, keeps Q T C unit (handler e)) ->
  Q initialWorld ->
  forall s, reachable s -> guarded Q T C s.
Proof.
  intros HU Hreset Hmount Hhandlers Hinit s Hs.
  induction Hs as [| e s _ IH _].
  - apply start_guarded; try assumption. split; [exact Hinit | constructor].
  - apply fire_guarded; auto.
Qed.

(** *** The two steps of the dialog *)

(** X9. In every state the page can reach, [step] is 1 or 2: the Review,
    which the dialog renders for every step other than 1, is only ever
    rendered for step 2. *)
Theorem step_is_1_or_2 (s : Sys) :
  reachable s -> step (world s) = 1 \/ step (world s) = 2.
Proof.
  intros Hs.
  refine (proj1 (reachable_guarded step_1_or_2 any_error any_request
                   _ _ _ _ _ s Hs)).
  - intros e w _ H. exact H.
  - keeps_handlers ltac:(first [exact I | intros ? ?; unfold step_1_or_2 in *; cbn; auto]).
  - keeps_handlers ltac:(first [exact I | intros ? ?; unfold step_1_or_2 in *; cbn; auto]).
  - intros e. destruct e;
      keeps_handlers ltac:(first [exact I | intros ? ?; unfold step_1_or_2 in *; cbn; auto]).
  - left. reflexivity.
Qed.

Lemma step_is_1_or_2_witness :
  step (world (run analysis_started mounted)) = 1
  \/ step (world (run analysis_started mounted)) = 2.
Proof.
  apply (step_is_1_or_2 (run analysis_started mounted)).
  apply reachable_run; [apply reachable_mounted | reflexivity].
Defined.

(** *** Every error is caught *)

Ltac log_side :=
  first
    [ exact I
    | let w := fresh "w" in
      let H := fresh "H" in
      let e := fresh "e" in
      let Hin := fresh "Hin" in
      intros w H e; cbn;
      first [ exact (H e)
            | rewrite in_app_iff; intros [Hin | [Hin | []]];
              [exact (H e Hin) | discriminate Hin] ] ].

(** X10. In no state the page can reach has a rejection been left
    unhandled: every error of the server, and the [TypeError] of a value
    that is not what its type says, ends in a [catch] of the handlers; the
    error that [handleCreateProject] throws again is caught by
    [handleSubmit]. *)
Theorem no_unhandled_rejection (s : Sys) :
  reachable s -> forall e, ~ In (UnhandledRejection e) (log (world s)).
Proof.
  intros Hs.
  refine (proj1 (reachable_guarded no_unhandled no_error any_request
                   _ _ _ _ _ s Hs)).
  - intros e w [].
  - keeps_handlers log_side.
  - keeps_handlers log_side.
  - intros e. destruct e; keeps_handlers log_side.
  - intros e [].
Qed.

Lemma no_unhandled_rejection_witness :
  let s := fire (Settled 0 api_down) (run analysis_started mounted) in
  log (world s) <> []
  /\ ~ In (UnhandledRejection (RemoteError "Network Error")) (log (world s)).
Proof.
  cbv zeta. split; [discriminate |].
  apply (no_unhandled_rejection
           (fire (Settled 0 api_down) (run analysis_started mounted))).
  apply reachable_fire; [| reflexivity].
  apply reachable_run; [apply reachable_mounted | reflexivity].
Defined.

(** *** The spinner *)

Lemma only_the_first_load (e : Event) :
  enabled e mounted = true -> exists api, e = Settled 0 api.
Proof.
  destruct e; cbn; try discriminate.
  destruct i as [| i]; [| discriminate]. intros _. exists api. reflexivity.
Qed.

Lemma loaded_or_mounted (s : Sys) :
  reachable s ->
  s = mounted \/ guarded page_loaded any_error any_request s.
Proof.
  assert (Hreset : keeps page_loaded any_error any_request unit resetOnClose).
  { keeps_handlers ltac:(first [exact I | intros ? ?; assumption]). }
  induction 1 as [| e s Hs IH Hen]; [left; reflexivity |]. right.
  destruct IH as [-> | IH].
  - destruct (only_the_first_load e Hen) as [api ->].
    unfold fire, settle, mounted, start. cbn.
    destruct (api getProjects) as [l | err]; cbn; split; cbn;
      try constructor; rewrite after_render_same; reflexivity.
  - apply fire_guarded; try assumption.
    + intros err w _ Hw. exact Hw.
    + destruct e;
        keeps_handlers ltac:(first [exact I | intros ? ?; unfold page_loaded in *;
                                              cbn; auto]).
Qed.

(** X11. The page shows the spinner only until the first load is settled,
    with a list or with an error: a reachable state that shows it is the
    state right after the first render.  So the dialog is never open behind
    the spinner, and the reload after a failed deletion never brings the
    spinner back. *)
Theorem spinner_only_before_first_load (s : Sys) :
  reachable s ->
  (page_view (world s) = Spinner -> s = mounted)
  /\ (s <> mounted -> isLoading (world s) = false)
  /\ (isCreateOpen (world s) = true -> isLoading (world s) = false).
Proof.
  intros Hs. destruct (loaded_or_mounted s Hs) as [-> | [Hl _]].
  - repeat split; try reflexivity; [congruence | discriminate].
  - unfold page_loaded in Hl. unfold page_view. rewrite Hl.
    repeat split; try reflexivity.
    destruct (projects (world s)); discriminate.
Qed.

Lemma spinner_only_before_first_load_witness :
  isLoading (world (run analysis_started mounted)) = false.
Proof.
  apply (spinner_only_before_first_load (run analysis_started mounted)).
  - apply reachable_run; [apply reachable_mounted | reflexivity].
  - reflexivity.
Defined.

(** *** The validation that never speaks *)

Ltac toast_side :=
  first
    [ exact I
    | let w := fresh "w" in
      let H := fresh "H" in
      let Hin := fresh "Hin" in
      intros w H; unfold no_validation_toast, validation_toast in *; cbn;
      first [ exact H
            | rewrite in_app_iff; intros [Hin | [Hin | []]];
              [exact (H Hin) | discriminate Hin] ] ].

Lemma handleAnalyze_quiet_when_valid (w : World) :
  isFormValid w = true ->
  exists w' k,
    run_sync handleAnalyze w
    = (w', [], Suspended (analyzeInitial (name (form w)) (description (form w))) k)
    /\ log w' = log w
    /\ forall r, keeps no_validation_toast any_error any_request unit (k r).
Proof.
  intros H. unfold handleAnalyze. cbn -[isFormValid]. rewrite H. cbn.
  eexists _, _. split; [reflexivity |]. split; [reflexivity |].
  intros [data | e]; keeps_steps toast_side.
Qed.

(** X12. The toast of the validation in [handleAnalyze] is never shown on
    a page that is used through its controls: the button that runs
    [handleAnalyze] is disabled as long as the draft is not valid, so the
    handler never finds an invalid one. *)
Theorem validation_toast_never_shown (s : Sys) :
  reachable s -> ~ In validation_toast (log (world s)).
Proof.
  assert (Hreset : keeps no_validation_toast any_error any_request unit
                         resetOnClose)
    by keeps_handlers toast_side.
  assert (HU : forall e w, any_error e -> no_validation_toast w ->
                           no_validation_toast
                             (with_effect (UnhandledRejection e) w)).
  { intros e w _ H. unfold no_validation_toast, validation_toast in *. cbn.
    rewrite in_app_iff. intros [Hin | [Hin | []]];
      [exact (H Hin) | discriminate Hin]. }
  intros Hs.
  enough (G : guarded no_validation_toast any_error any_request s)
    by exact (proj1 G).
  induction Hs as [| e s Hs IH Hen].
  - apply start_guarded; try assumption.
    + keeps_handlers toast_side.
    + split; [intros [] | constructor].
  - destruct e;
      try solve [apply fire_guarded; try assumption; keeps_handlers toast_side].
    unfold fire. unfold enabled, analyze_disabled in Hen. cbv zeta in Hen.
    rewrite !andb_true_iff, !negb_true_iff, orb_false_iff, negb_false_iff in Hen.
    destruct Hen as [_ [Hvalid _]]. destruct IH as [Hw Hold].
    destruct (handleAnalyze_quiet_when_valid _ Hvalid)
      as (w' & k & Hrun & Hlog & Hk).
    eapply start_guarded_run; try eassumption.
    + unfold no_validation_toast in *. rewrite Hlog. exact Hw.
    + constructor.
    + split; [exact I | exact Hk].
Qed.

Lemma validation_toast_never_shown_witness :
  let s := fire (Settled 0 api_down) (run analysis_started mounted) in
  In (ToastError "Failed to analyze project. Please try again.") (log (world s))
  /\ ~ In validation_toast (log (world s)).
Proof.
  cbv zeta. split; [left; reflexivity |].
  apply (validation_toast_never_shown
           (fire (Settled 0 api_down) (run analysis_started mounted))).
  apply reachable_fire; [| reflexivity].
  apply reachable_run; [apply reachable_mounted | reflexivity].
Defined.

(** *** What is asked of the server *)

Lemma format_subreddits_strings_only (v v' : jsval) :
  format_subreddits v = Resolved v' -> exists l, v' = strings l.
Proof.
  destruct v; cbn;
    try (intros E; injection E as <-; exists []; reflexivity).
  destruct (map_replace l) as [l' |] eqn:E; intros E'; [| discriminate E'].
  injection E' as <-.
  destruct (map_replace_all_strings _ _ E) as (ss & _ & ->).
  exists (map replace_r_slash ss). reflexivity.
Qed.

Lemma formatData_well_formed (projectData d : ProjectData) :
  formatData projectData = Resolved d -> well_formed (createProject d).
Proof.
  unfold formatData.
  destruct (format_subreddits (subreddits projectData)) as [subs |] eqn:F;
    intros E; [| discriminate E].
  injection E as <-. cbn. split; [apply format_keywords_array |].
  eapply format_subreddits_strings_only. exact F.
Qed.

Lemma page_request_well_formed (c : request) :
  from_dialog c = false -> well_formed c.
Proof. destruct c; cbn; try discriminate; intros _; exact I. Qed.

Lemma requests_well_formed_pending (s : Sys) :
  reachable s -> Forall (fun p => well_formed (req p)) (pending s).
Proof.
  induction 1 as [| e s Hs IH Hen].
  - cbn. constructor; [exact I | constructor].
  - pose proof (reachable_invariant s Hs) as [Hwb _].
    destruct e; unfold fire.
    + unfold start. cbn. rewrite app_nil_r. exact IH.
    + unfold start. cbn. rewrite app_nil_r. exact IH.
    + unfold start. cbn. rewrite app_nil_r. exact IH.
    + unfold start. cbn. rewrite app_nil_r. exact IH.
    + unfold enabled, analyze_disabled in Hen. cbv zeta in Hen.
      rewrite !andb_true_iff, !negb_true_iff, orb_false_iff, negb_false_iff
        in Hen.
      destruct Hen as [_ [Hvalid _]].
      destruct (handleAnalyze_runs _ Hvalid) as (w' & k & Hrun & _ & _).
      rewrite (start_unfold _ _ _ _ _ Hrun). cbn.
      apply Forall_app. split; [exact IH |]. constructor; [| constructor].
      cbn. now apply isFormValid_spec.
    + unfold start. cbn. rewrite app_nil_r. exact IH.
    + unfold start, dialog_handleSubmit, handleSubmit. cbn -[formatData].
      destruct (formatData (form (world s))) as [d | err] eqn:F; cbn.
      * apply Forall_app. split; [exact IH |]. constructor; [| constructor].
        cbn [req]. eapply formatData_well_formed. exact F.
      * rewrite app_nil_r. exact IH.
    + unfold start. cbn. apply Forall_app. split; [exact IH |].
      constructor; [exact I | constructor].
    + unfold settle.
      destruct (nth_error (pending s) i) as [p |] eqn:Hp; [| exact IH].
      assert (Hgood : well_behaved p).
      { eapply Forall_forall; [exact Hwb |]. eapply nth_error_In; exact Hp. }
      unfold well_behaved in Hgood.
      destruct (from_dialog (req p)) eqn:Hd.
      * destruct (Hgood (api (req p)) (world s)) as (w' & st & Hrun & _).
        erewrite start_unfold by (cbn [world]; exact Hrun). cbn.
        rewrite app_nil_r. now apply Forall_remove_nth.
      * destruct Hgood as [_ Hgood].
        destruct (Hgood (api (req p)) (world s))
          as (w' & ps & st & Hrun & _ & Hq).
        erewrite start_unfold by (cbn [world]; exact Hrun). cbn.
        rewrite app_nil_r. apply Forall_app.
        split; [now apply Forall_remove_nth |].
        eapply Forall_impl; [| exact Hq].
        intros q [Hreq _]. now apply page_request_well_formed.
Qed.

(** X13. Every request that is in flight in a state the page can reach is
    well formed: an analysis is asked for a draft with a name and with a
    description of length at least 10, and a project is sent for creation
    with an array of keywords and with subreddits that are an array of
    strings. *)
Theorem requests_well_formed (s : Sys) :
  reachable s -> forall c, In c (requests s) -> well_formed c.
Proof.
  intros Hs c Hin. unfold requests in Hin. apply in_map_iff in Hin.
  destruct Hin as (p & <- & Hp).
  pose proof (requests_well_formed_pending s Hs) as H.
  eapply Forall_forall in H; [exact H | exact Hp].
Qed.

Lemma requests_well_formed_witness :
  well_formed (analyzeInitial "gophers" "Go programming").
Proof.
  apply (requests_well_formed (run analysis_started mounted)).
  - apply reachable_run; [apply reachable_mounted | reflexivity].
  - left. reflexivity.
Defined.

(** *** A dialog closed with nothing in flight *)

Ltac closed_side :=
  first
    [ exact I
    | reflexivity
    | let w := fresh "w" in
      let H := fresh "H" in
      intros w H; unfold closed_and_empty in *; cbn;
      first [ exact H
            | destruct H as (? & ? & ? & ?); repeat split; assumption ] ].

Lemma closed_keeps_resetOnClose :
  keeps closed_and_empty any_error page_request unit resetOnClose.
Proof. keeps_handlers closed_side. Qed.

Lemma closed_keeps_loadProjects :
  keeps closed_and_empty any_error page_request unit loadProjects.
Proof. keeps_handlers closed_side. Qed.

Lemma closed_keeps_handleDeleteProject (projectId : string) :
  keeps closed_and_empty any_error page_request unit
        (handleDeleteProject projectId).
Proof. keeps_handlers closed_side. Qed.

Lemma closed_unhandled (e : error) (w : World) :
  any_error e -> closed_and_empty w ->
  closed_and_empty (with_effect (UnhandledRejection e) w).
Proof. intros _ H. exact H. Qed.

Lemma dialog_count_zero (ps : list Pending) :
  dialog_count ps = 0 -> Forall (fun p => from_dialog (req p) = false) ps.
Proof.
  induction ps as [| p ps IH]; [constructor |].
  unfold dialog_count. cbn. destruct (from_dialog (req p)) eqn:E; cbn;
    [discriminate |].
  intros H. constructor; [exact E | apply IH, H].
Qed.

(** The requests of the page that are in flight never touch the draft. *)
Lemma page_pendings_hered (s : Sys) :
  reachable s ->
  Forall (fun p => from_dialog (req p) = false ->
                   hered closed_and_empty any_error page_request p)
         (pending s).
Proof.
  induction 1 as [| e s Hs IH Hen].
  - cbn. constructor; [| constructor]. intros _. split; [reflexivity |].
    intros [l | err]; keeps_steps closed_side.
  - pose proof (reachable_invariant s Hs) as [Hwb _].
    destruct e; unfold fire.
    + unfold start. cbn. rewrite app_nil_r. exact IH.
    + unfold start. cbn. rewrite app_nil_r. exact IH.
    + unfold start. cbn. rewrite app_nil_r. exact IH.
    + unfold start. cbn. rewrite app_nil_r. exact IH.
    + unfold enabled, analyze_disabled in Hen. cbv zeta in Hen.
      rewrite !andb_true_iff, !negb_true_iff, orb_false_iff, negb_false_iff
        in Hen.
      destruct Hen as [_ [Hvalid _]].
      destruct (handleAnalyze_runs _ Hvalid) as (w' & k & Hrun & _ & _).
      rewrite (start_unfold _ _ _ _ _ Hrun). cbn.
      apply Forall_app. split; [exact IH |]. constructor; [| constructor].
      cbn. discriminate.
    + unfold start. cbn. rewrite app_nil_r. exact IH.
    + destruct (handleSubmit_runs (world s))
        as [(w' & st & Hrun & _) | (w' & d & k & Hrun & _ & _)];
        rewrite (start_unfold _ _ _ _ _ Hrun); cbn.
      * rewrite app_nil_r. exact IH.
      * apply Forall_app. split; [exact IH |]. constructor; [| constructor].
        cbn. discriminate.
    + destruct (run_sync (handleDeleteProject projectId) (world s))
        as [[w' ps] st] eqn:Hrun.
      rewrite (start_unfold _ _ _ _ _ Hrun). cbn.
      destruct (keeps_run _ _ _ closed_unhandled _ _
                  (closed_keeps_handleDeleteProject projectId) _ _ _ _ Hrun)
        as (_ & Hps & Hst).
      apply Forall_app. split; [exact IH |].
      eapply Forall_impl; [intros p Hp _; exact Hp |].
      apply Forall_app. split; [exact Hps | now apply parked_hered].
    + unfold settle.
      destruct (nth_error (pending s) i) as [p |] eqn:Hp; [| exact IH].
      assert (Hgood : well_behaved p).
      { eapply Forall_forall; [exact Hwb |]. eapply nth_error_In; exact Hp. }
      assert (Hpage : from_dialog (req p) = false ->
                      hered closed_and_empty any_error page_request p).
      { eapply Forall_forall in IH; [exact IH |].
        eapply nth_error_In; exact Hp. }
      unfold well_behaved in Hgood.
      destruct (from_dialog (req p)) eqn:Hd.
      * destruct (Hgood (api (req p)) (world s)) as (w' & st & Hrun & _).
        erewrite start_unfold by (cbn [world]; exact Hrun). cbn.
        rewrite app_nil_r. now apply Forall_remove_nth.
      * destruct (Hpage eq_refl) as [_ Hk].
        destruct (run_sync (cont p (api (req p))) (world s))
          as [[w' ps] st] eqn:Hrun.
        erewrite start_unfold by (cbn [world]; exact Hrun). cbn.
        destruct (keeps_run _ _ _ closed_unhandled _ _ (Hk _) _ _ _ _ Hrun)
          as (_ & Hps & Hst).
        apply Forall_app. split; [now apply Forall_remove_nth |].
        eapply Forall_impl; [intros q Hq _; exact Hq |].
        apply Forall_app. split; [exact Hps | now apply parked_hered].
Qed.

Lemma run_behind_closed_dialog (es : list Event) (s : Sys) :
  forallb behind_closed_dialog es = true ->
  guarded closed_and_empty any_error page_request s ->
  guarded closed_and_empty any_error page_request (run es s).
Proof.
  revert s. induction es as [| e es IH]; intros s Hes Hs; [exact Hs |].
  cbn in Hes. apply andb_true_iff in Hes. destruct Hes as [He Hes].
  cbn. apply IH; [exact Hes |].
  apply fire_guarded; try assumption.
  - exact closed_unhandled.
  - exact closed_keeps_resetOnClose.
  - destruct e; try discriminate He;
      [apply closed_keeps_handleDeleteProject | apply keeps_Ret].
Qed.

(** X14. When the dialog is closed while neither an analysis nor a
    creation is in flight, it opens again on an empty Draft, whatever
    happened behind the closed dialog in between: deletions, and answers to
    the requests of the page that were or came in flight. *)
Theorem closed_idle_dialog_reopens_empty (s : Sys) (es : list Event) :
  reachable s ->
  isCreateOpen (world s) = true ->
  loading (world s) = false ->
  forallb behind_closed_dialog es = true ->
  let reopened := fire ClickNewProject (run es (fire CloseDialog s)) in
  isCreateOpen (world reopened) = true
  /\ step (world reopened) = 1
  /\ form (world reopened) = defaultValues.
Proof.
  intros Hs Hopen Hidle Hes. cbv zeta.
  assert (Hclosed : guarded closed_and_empty any_error page_request
                            (fire CloseDialog s)).
  { pose proof (reachable_invariant s Hs) as [_ Hc].
    unfold in_flight in Hc. rewrite Hidle in Hc.
    pose proof (dialog_count_zero _ Hc) as Hpage.
    pose proof (page_pendings_hered s Hs) as Hh.
    unfold fire, start. cbn. split; cbn.
    - unfold after_render. cbn. rewrite Hopen. cbn.
      repeat split; try reflexivity. exact Hidle.
    - rewrite app_nil_r. rewrite Forall_forall in *.
      intros p Hp. apply (Hh p Hp), (Hpage p Hp). }
  destruct (run_behind_closed_dialog es _ Hes Hclosed)
    as [(Hc & _ & Hstep & Hform) _].
  generalize dependent (run es (fire CloseDialog s)). intros c Hc Hstep Hform.
  unfold fire, start. cbn. unfold after_render. cbn.
  rewrite Hc. cbn. repeat split; assumption.
Qed.

Lemma closed_idle_dialog_reopens_empty_witness :
  let s := fire (Settled 0 (api_up [])) (run analysis_started mounted) in
  let reopened :=
    fire ClickNewProject
         (run [ClickDelete "p1"; Settled 0 api_down; Settled 0 (api_up [])]
              (fire CloseDialog s)) in
  step (world s) = 2
  /\ step (world reopened) = 1
  /\ form (world reopened) = defaultValues.
Proof.
  cbv zeta. split; [reflexivity |].
  apply (closed_idle_dialog_reopens_empty
           (fire (Settled 0 (api_up [])) (run analysis_started mounted))
           [ClickDelete "p1"; Settled 0 api_down; Settled 0 (api_up [])]);
    try reflexivity.
  apply reachable_fire; [| reflexivity].
  apply reachable_run; [apply reachable_mounted | reflexivity].
Defined.

(** *** While the dialog is busy *)

(** X15. While an analysis or a creation is in flight, the draft cannot be
    edited and the flow cannot be moved: of the controls of the dialog only
    the close is enabled; the inputs, Back and the two buttons that start a
    request are not. *)
Theorem busy_dialog_is_frozen (s : Sys) (e : Event) :
  reachable s ->
  0 < in_flight s ->
  enabled e s = true ->
  possible_while_busy e = true.
Proof.
  intros Hs Hbusy Hen. destruct (reachable_invariant s Hs) as [_ Hc].
  destruct (loading (world s)) eqn:Hl; [| lia].
  destruct e; try reflexivity; unfold enabled in Hen; cbv zeta in Hen;
    unfold analyze_disabled, submit_disabled in Hen; rewrite Hl in Hen;
    rewrite ?orb_true_r in Hen; cbn in Hen; rewrite ?andb_false_r in Hen;
    discriminate Hen.
Qed.

Lemma busy_dialog_is_frozen_witness :
  possible_while_busy CloseDialog = true.
Proof.
  apply (busy_dialog_is_frozen (run analysis_started mounted) CloseDialog).
  - apply reachable_run; [apply reachable_mounted | reflexivity].
  - cbn. lia.
  - reflexivity.
Defined.

(** X16. Closing the dialog does not cancel a creation in flight.  When
    the server accepts it, the project is appended to the list and both
    success toasts are shown although the dialog is closed; when the server
    rejects it, both failure toasts are shown and the list is as it was.
    Either way the dialog stays closed on an empty Draft and the busy flag
    goes down. *)
Theorem close_does_not_cancel_creation (w : World) (api : Api)
  (d : ProjectData) :
  isCreateOpen w = true ->
  formatData (form w) = Resolved d ->
  let s1 := fire CloseDialog (start dialog_handleSubmit (idle w)) in
  let s2 := settle 0 api s1 in
  requests s1 = [createProject d]
  /\ isCreateOpen (world s2) = false
  /\ step (world s2) = 1
  /\ form (world s2) = defaultValues
  /\ loading (world s2) = false
  /\ pending s2 = []
  /\ (forall newProject,
        api (createProject d) = Resolved newProject ->
        projects (world s2) = projects w ++ [newProject]
        /\ log (world s2) =
           log w ++ [ToastSuccess "Project created successfully!";
                     ToastSuccess "Project created successfully!"])
  /\ (forall e,
        api (createProject d) = Rejected e ->
        projects (world s2) = projects w
        /\ log (world s2) =
           log w ++ [ConsoleError "Failed to create project:";
                     ToastError "Failed to create project. Please try again.";
                     ConsoleError "Error creating project:";
                     ToastError "Failed to create project. Please try again."]).
Proof.
  intros Hopen F. cbv zeta.
  unfold fire, settle, start, dialog_handleSubmit, handleSubmit.
  cbn -[formatData]. rewrite F. cbn.
  rewrite (after_render_same w) by reflexivity. cbn.
  set (busy := with_loadingMessage "Creating your project..."
                 (with_loading true w)).
  assert (Hclose : after_render busy (with_isCreateOpen false busy)
                   = with_step 1 (with_form (fun _ => defaultValues)
                                    (with_isCreateOpen false busy))).
  { unfold after_render. cbn. rewrite Hopen. reflexivity. }
  rewrite Hclose.
  destruct (api (createProject d)) as [p | e]; cbn.
  - repeat (split; [reflexivity |]). split.
    + intros newProject E. injection E as <-.
      split; [reflexivity |]. rewrite <- !app_assoc. reflexivity.
    + intros e E. discriminate E.
  - repeat (split; [reflexivity |]). split.
    + intros newProject E. discriminate E.
    + intros e' _. split; [reflexivity |]. rewrite <- !app_assoc. reflexivity.
Qed.

Lemma close_does_not_cancel_creation_witness :
  let w := review_world (strings ["golang"]) in
  let s2 := settle 0 (api_up [])
                   (fire CloseDialog (start dialog_handleSubmit (idle w))) in
  isCreateOpen (world s2) = false /\ length (projects (world s2)) = 1.
Proof.
  cbv zeta.
  destruct (close_does_not_cancel_creation
              (review_world (strings ["golang"])) (api_up [])
              {| name := "gophers"; description := "Go programming";
                 keywords := strings ["go"];
                 subreddits := strings ["golang"] |}
              eq_refl eq_refl) as (_ & Hc & _ & _ & _ & _ & Hok & _).
  split; [exact Hc |].
  rewrite (proj1 (Hok _ eq_refl)). reflexivity.
Defined.

(** *** Two loads in flight *)

(** X17. When [loadProjects] has been called twice and both requests get
    an answer, the list held in the end is the answer that arrived last,
    in whichever order the two arrive: an older answer that arrives late
    replaces a newer one. *)
Theorem last_answer_wins (w : World) (api_a api_b : Api)
  (la lb : list Project) :
  api_a getProjects = Resolved la ->
  api_b getProjects = Resolved lb ->
  let s := start loadProjects (start loadProjects (idle w)) in
  requests s = [getProjects; getProjects]
  /\ projects (world (settle 0 api_b (settle 0 api_a s))) = lb
  /\ projects (world (settle 0 api_a (settle 1 api_b s))) = la
  /\ pending (settle 0 api_b (settle 0 api_a s)) = []
  /\ pending (settle 0 api_a (settle 1 api_b s)) = [].
Proof.
  intros Ha Hb. cbv zeta. unfold settle, start, loadProjects. cbn.
  rewrite !after_render_same by reflexivity. cbn.
  rewrite Ha, Hb. cbn. rewrite !after_render_same by reflexivity. cbn.
  rewrite Ha, Hb. cbn. rewrite !after_render_same by reflexivity. cbn.
  repeat split; reflexivity.
Qed.

Lemma last_answer_wins_witness :
  let s := start loadProjects (start loadProjects (idle (listing_world []))) in
  projects (world (settle 0 (api_up []) (settle 1 (api_up [project1]) s))) = [].
Proof.
  cbv zeta.
  apply (last_answer_wins (listing_world []) (api_up []) (api_up [project1])
           [] [project1] eq_refl eq_refl).
Defined.
